(** * historical-nanochat: contamination detector and shard packager

    A shallow embedding of [data/process/contamination_check.py] and
    [data/process/shard_packager.py], and of the two text functions of the
    downloaders that stand on their own: [parse_trial_date] and
    [check_for_anachronisms].

    Conventions of the embedding.
    - A Python [str] is a Rocq [string]; the development covers ASCII text, so
      [lower], [upper], [\d], [\w], [\b] and [strip] are the ASCII ones
      (on ASCII text they agree with Python's Unicode-aware versions).
    - A Python [int] is a [Z]; a Python [float] is a binary64 [float]
      (primitive floats, the same IEEE 754 arithmetic as CPython's).
    - A Python [set] of strings is a [gset string]: iteration follows
      [elements], an order the program may not rely on, as in Python.
    - A call that can raise returns a [result]; [Raise] carries the exception.
    - The global generator of the [random] module is explicit state. *)

From Stdlib Require Import ZArith Ascii String List Bool Lia Floats DecimalString.
From stdpp Require Import base gmap strings list.
Import ListNotations.

Local Open Scope Z_scope.

Set Warnings "-inexact-float".

(** ** Exceptions *)

Inductive exception : Type :=
| ValueError
| ZeroDivisionError.

Inductive result (A : Type) : Type :=
| Ok (a : A)
| Raise (e : exception).

Arguments Ok {A} a.
Arguments Raise {A} e.

Global Instance result_ret : MRet result := fun A a => Ok a.

Global Instance result_bind : MBind result := fun A B f m =>
  match m with
  | Ok a => f a
  | Raise e => Raise e
  end.

(** ** Python string primitives *)

Definition code (c : ascii) : N := N_of_ascii c.

Definition is_upper (c : ascii) : bool := ((65 <=? code c) && (code c <=? 90))%N.
Definition is_lower (c : ascii) : bool := ((97 <=? code c) && (code c <=? 122))%N.
Definition is_digit (c : ascii) : bool := ((48 <=? code c) && (code c <=? 57))%N.

(** [\w] on ASCII text: letters, digits and the underscore. *)
Definition is_word (c : ascii) : bool :=
  is_upper c || is_lower c || is_digit c || (code c =? 95)%N.

(** [str.isspace] on ASCII text: tab, LF, VT, FF, CR, the four separators
    0x1c..0x1f, and the space. *)
Definition is_space (c : ascii) : bool :=
  ((9 <=? code c) && (code c <=? 13) || (28 <=? code c) && (code c <=? 32))%N.

Definition lower_char (c : ascii) : ascii :=
  if is_upper c then ascii_of_N (code c + 32) else c.

Definition upper_char (c : ascii) : ascii :=
  if is_lower c then ascii_of_N (code c - 32) else c.

Fixpoint map_string (f : ascii -> ascii) (s : string) : string :=
  match s with
  | EmptyString => EmptyString
  | String c s' => String (f c) (map_string f s')
  end.

(** [s.lower()] and [s.upper()] *)
Definition lower : string -> string := map_string lower_char.
Definition upper : string -> string := map_string upper_char.

(** [len(s)] *)
Definition len (s : string) : Z := Z.of_nat (String.length s).

Fixpoint starts_with (p s : string) : bool :=
  match p, s with
  | EmptyString, _ => true
  | String a p', String b s' => Ascii.eqb a b && starts_with p' s'
  | String _ _, EmptyString => false
  end.

(** [s.find(p)], [None] standing for Python's [-1]. *)
Fixpoint find (p s : string) : option nat :=
  if starts_with p s then Some O
  else match s with
       | EmptyString => None
       | String _ s' => option_map S (find p s')
       end.

(** [p in s] *)
Definition contains (p s : string) : bool :=
  match find p s with Some _ => true | None => false end.

Fixpoint str_take (n : nat) (s : string) : string :=
  match n, s with
  | S n', String c s' => String c (str_take n' s')
  | _, _ => EmptyString
  end.

Fixpoint str_drop (n : nat) (s : string) : string :=
  match n, s with
  | S n', String _ s' => str_drop n' s'
  | _, _ => s
  end.

(** A slice bound as Python normalises it: a negative bound counts from the
    end, and the result is clamped to [0 .. len s]. *)
Definition clamp_index (s : string) (i : Z) : nat :=
  let i' := if i <? 0 then i + len s else i in
  Z.to_nat (Z.min (Z.max 0 i') (len s)).

(** [s[start:stop]] *)
Definition slice (s : string) (start stop : Z) : string :=
  let a := clamp_index s start in
  let b := clamp_index s stop in
  str_take (b - a) (str_drop a s).

(** [s.find(p, start)] for [0 <= start], [None] standing for [-1]. *)
Definition find_from (p s : string) (start : nat) : option nat :=
  if (String.length s <? start)%nat then None
  else option_map (fun i => (start + i)%nat) (find p (str_drop start s)).

Fixpoint lstrip (s : string) : string :=
  match s with
  | EmptyString => EmptyString
  | String c s' => if is_space c then lstrip s' else s
  end.

Fixpoint rstrip (s : string) : string :=
  match s with
  | EmptyString => EmptyString
  | String c s' =>
      match rstrip s' with
      | EmptyString => if is_space c then EmptyString else String c EmptyString
      | r => String c r
      end
  end.

(** [s.strip()] *)
Definition strip (s : string) : string := lstrip (rstrip s).

(** [int(s)] on a string of decimal digits; anything else raises
    [ValueError] (signs, blanks and underscores never reach it here). *)
Fixpoint int_digits (acc : Z) (s : string) : result Z :=
  match s with
  | EmptyString => Ok acc
  | String c s' =>
      if is_digit c then int_digits (10 * acc + (Z.of_N (code c) - 48)) s'
      else Raise ValueError
  end.

Definition int (s : string) : result Z :=
  match s with
  | EmptyString => Raise ValueError
  | _ => int_digits 0 s
  end.

(** [str(n)] for an integer *)
Definition str_of_int (n : Z) : string := NilZero.string_of_int (Z.to_int n).

(** [min(a, b)] on floats, as the builtin computes it: the first argument
    unless the second is strictly smaller. *)
Definition min (a b : float) : float := if (b <? a)%float then b else a.


Definition newline : string := String "010" "".

(** ** The fragment of Python's [re] the detector uses

    A backtracking matcher in the order of Python's engine: the left branch
    of an alternative first, repetitions greedy. The continuation receives
    the character before the current position (for [\b]) and the text that
    is left. *)

Inductive regex : Type :=
| Empty
| Char (c : ascii)
| Class (p : ascii -> bool)
| WordBoundary
| Concat (r1 r2 : regex)
| Union (r1 r2 : regex)
| Optional (r : regex)
| OneOrMore (r : regex).

Fixpoint literal (s : string) : regex :=
  match s with
  | EmptyString => Empty
  | String c s' => Concat (Char c) (literal s')
  end.

(** [r{n}] *)
Fixpoint exactly (n : nat) (r : regex) : regex :=
  match n with
  | O => Empty
  | S n' => Concat r (exactly n' r)
  end.

(** [r{0,n}], greedy *)
Fixpoint at_most (n : nat) (r : regex) : regex :=
  match n with
  | O => Empty
  | S n' => Optional (Concat r (at_most n' r))
  end.

(** [r{lo,hi}] *)
Definition between (lo hi : nat) (r : regex) : regex :=
  Concat (exactly lo r) (at_most (hi - lo) r).

Definition word_before (prev : option ascii) : bool :=
  match prev with Some c => is_word c | None => false end.

Definition word_after (s : string) : bool :=
  match s with String c _ => is_word c | EmptyString => false end.

Definition or_else {A : Type} (x y : option A) : option A :=
  match x with Some _ => x | None => y end.

(** The body of [OneOrMore] consumes at least one character in every pattern
    below, so [String.length s] further rounds cover every repetition. *)
Fixpoint rmatch {A : Type} (r : regex) (prev : option ascii) (s : string)
    (k : option ascii -> string -> option A) {struct r} : option A :=
  match r with
  | Empty => k prev s
  | Char c =>
      match s with
      | String a s' => if Ascii.eqb a c then k (Some a) s' else None
      | EmptyString => None
      end
  | Class p =>
      match s with
      | String a s' => if p a then k (Some a) s' else None
      | EmptyString => None
      end
  | WordBoundary =>
      if xorb (word_before prev) (word_after s) then k prev s else None
  | Concat r1 r2 => rmatch r1 prev s (fun prev' s' => rmatch r2 prev' s' k)
  | Union r1 r2 => or_else (rmatch r1 prev s k) (rmatch r2 prev s k)
  | Optional r' => or_else (rmatch r' prev s k) (k prev s)
  | OneOrMore r' =>
      (fix rounds (n : nat) (prev : option ascii) (s : string) : option A :=
         rmatch r' prev s (fun prev' s' =>
           match n with
           | O => k prev' s'
           | S n' => or_else (rounds n' prev' s') (k prev' s')
           end)) (String.length s) prev s
  end.

(** The text left after the first match of [r] at the current position. *)
Definition match_here (r : regex) (prev : option ascii) (s : string) : option string :=
  rmatch r prev s (fun _ rest => Some rest).

(** [re.search(r, s)] as a truth value *)
Fixpoint search_from (r : regex) (prev : option ascii) (s : string) : bool :=
  match match_here r prev s with
  | Some _ => true
  | None =>
      match s with
      | EmptyString => false
      | String c s' => search_from r (Some c) s'
      end
  end.

Definition search (r : regex) (s : string) : bool := search_from r None s.

(** [re.finditer(r, s)]: the matched texts, left to right, without overlap.
    [skip] counts the characters of the last match still to be passed. *)
Fixpoint finditer_from (r : regex) (skip : nat) (prev : option ascii) (s : string)
    : list string :=
  match skip with
  | S skip' =>
      match s with
      | EmptyString => []
      | String c s' => finditer_from r skip' (Some c) s'
      end
  | O =>
      match match_here r prev s with
      | Some rest =>
          let m := str_take (String.length s - String.length rest) s in
          m :: match s with
               | EmptyString => []
               | String c s' => finditer_from r (String.length m - 1) (Some c) s'
               end
      | None =>
          match s with
          | EmptyString => []
          | String c s' => finditer_from r O (Some c) s'
          end
      end
  end.

Definition finditer (r : regex) (s : string) : list string := finditer_from r O None s.

Definition digit : regex := Class is_digit.
Definition word : regex := Class is_word.

(** [\b(19\d{2}|20\d{2})\b]; group 1 is the whole match. *)
Definition year_pattern : regex :=
  Concat WordBoundary
    (Concat (Union (Concat (literal "19") (exactly 2 digit))
                   (Concat (literal "20") (exactly 2 digit)))
            WordBoundary).

(** [\b\d{1,2}/\d{1,2}/(?:19|20)\d{2}\b] *)
Definition modern_date_pattern : regex :=
  Concat WordBoundary
    (Concat (between 1 2 digit)
      (Concat (Char "/")
        (Concat (between 1 2 digit)
          (Concat (Char "/")
            (Concat (Union (literal "19") (literal "20"))
              (Concat (exactly 2 digit) WordBoundary)))))).

(** [https?://|www\.|\.com|\.org|@\w+\.\w+] *)
Definition url_pattern : regex :=
  Union (Concat (literal "http") (Concat (Optional (Char "s")) (literal "://")))
    (Union (literal "www.")
      (Union (literal ".com")
        (Union (literal ".org")
          (Concat (Char "@")
            (Concat (OneOrMore word) (Concat (Char ".") (OneOrMore word))))))).

(** [\$\d{1,3}(,\d{3})+] *)
Definition currency_pattern : regex :=
  Concat (Char "$")
    (Concat (between 1 3 digit)
      (OneOrMore (Concat (Char ",") (exactly 3 digit)))).

(** ** contamination_check.py *)

Record ContaminationResult : Type := {
  is_contaminated : bool;
  confidence : float;
  reasons : list string;
  matched_terms : list string;
}.

(** The lexicon: one dict per category, from threshold year to its set of
    terms. The conditional entries are written as in the source: the tests on
    the literal ["context"] are decided when the module is loaded. *)

Definition ANACHRONISM_ENTITIES : gmap Z (gset string) :=
  {[ 1913 := ({[
        "world war i"; "world war 1"; "the great war"; "wwi";
        "world war ii"; "world war 2"; "wwii"; "second world war";
        "russian revolution"; "bolshevik revolution";
        "treaty of versailles"; "league of nations";
        "great depression"; "stock market crash 1929";
        "pearl harbor"; "d-day"; "hiroshima"; "nagasaki";
        "holocaust"; "concentration camp"; "auschwitz";
        "cold war"; "korean war"; "vietnam war";
        "cuban missile crisis"; "bay of pigs";
        "moon landing"; "apollo 11" ]} : gset string);
     1900 := ({[
        "wright brothers"; "kitty hawk"; "first flight";
        "world war"; "wwi"; "wwii";
        "russian revolution"; "bolshevik";
        "relativity"; "quantum mechanics";
        "radio broadcast"; "television" ]} : gset string);
     1850 := ({[
        (if contains "american" "context" then "civil war" else "");
        "darwin's origin of species";
        "telephone"; "electric light"; "light bulb";
        "automobile"; "motor car"; "internal combustion";
        "airplane"; "aeroplane";
        "world war"; "wwi"; "wwii" ]} : gset string) ]}.

Definition ANACHRONISM_PEOPLE : gmap Z (gset string) :=
  {[ 1913 := ({[
        "adolf hitler"; "hitler";
        "benito mussolini"; "mussolini";
        "joseph stalin"; "stalin";
        "franklin roosevelt"; "fdr";
        (if contains "prime minister" "context" then "winston churchill" else "");
        (if contains "relativity" "context" then "albert einstein" else "");
        "mao zedong"; "mao tse-tung";
        "fidel castro";
        "john f kennedy"; "jfk";
        "martin luther king";
        "nelson mandela" ]} : gset string);
     1900 := ({[
        "wright brothers";
        "albert einstein";
        (if contains "radioactivity" "context" then "marie curie" else "") ]}
        : gset string) ]}.

Definition ANACHRONISM_TECHNOLOGY : gmap Z (gset string) :=
  {[ 1913 := ({[
        "television"; "tv set";
        "radio broadcast"; "wireless radio";
        "computer"; "computing machine";
        "atomic bomb"; "nuclear weapon"; "hydrogen bomb";
        "jet engine"; "jet aircraft";
        "helicopter";
        "penicillin"; "antibiotic";
        "plastic";
        "nylon" ]} : gset string);
     1900 := ({[
        "airplane"; "aeroplane"; "aircraft";
        "radio"; "wireless telegraphy";
        "automobile"; "motor car";
        "moving picture"; "cinema" ]} : gset string);
     1850 := ({[
        "telephone";
        "phonograph"; "gramophone";
        "electric light"; "incandescent";
        "typewriter";
        (if negb (contains "daguerreotype" "context") then "photograph" else "") ]}
        : gset string) ]}.

Definition ANACHRONISM_CONCEPTS : gmap Z (gset string) :=
  {[ 1913 := ({[
        "nazi"; "nazism"; "fascism"; "fascist";
        "soviet union"; "ussr"; "soviet";
        "communist party";
        "united nations";
        (if contains "declaration" "context" then "human rights" else "");
        "genocide";
        "existentialism";
        (if contains "widespread" "context" then "psychoanalysis" else "") ]}
        : gset string);
     1900 := ({[
        "radioactivity"; "radiation";
        "x-ray";
        "electron";
        "relativity";
        "quantum" ]} : gset string) ]}.

Definition categories : list (gmap Z (gset string)) :=
  [ANACHRONISM_ENTITIES; ANACHRONISM_PEOPLE;
   ANACHRONISM_TECHNOLOGY; ANACHRONISM_CONCEPTS].

(** [if term: terms.add(term.lower())] *)
Definition add_term (terms : gset string) (term : string) : gset string :=
  match term with
  | EmptyString => terms
  | _ => terms ∪ {[ lower term ]}
  end.

(** [if year >= cutoff_year: for term in year_terms: ...] *)
Definition add_year (cutoff_year : Z) (terms : gset string)
    (item : Z * gset string) : gset string :=
  let '(year, year_terms) := item in
  if year >=? cutoff_year then foldl add_term terms (elements year_terms)
  else terms.

(** [for year, year_terms in category.items(): ...] *)
Definition add_category (cutoff_year : Z) (terms : gset string)
    (category : gmap Z (gset string)) : gset string :=
  foldl (add_year cutoff_year) terms (map_to_list category).

Definition get_all_anachronisms (cutoff_year : Z) : gset string :=
  foldl (add_category cutoff_year) ∅ categories.

(** The loop over [re.finditer(year_pattern, text)]. *)
Definition note_year (cutoff_year : Z) (found : result (list string)) (m : string)
    : result (list string) :=
  found ← found;
  year ← int m;
  if year >? cutoff_year
  then Ok (found ++ ["Year reference: " +:+ str_of_int year])
  else Ok found.

Definition check_for_modern_references (text : string) (cutoff_year : Z)
    : result (list string) :=
  let text_lower := lower text in
  found ← foldl (note_year cutoff_year) (Ok []) (finditer year_pattern text);
  let found :=
    if search modern_date_pattern text then found ++ ["Modern date format"]
    else found in
  let found :=
    if search url_pattern text_lower then found ++ ["URL or email address"]
    else found in
  let found :=
    if search currency_pattern text then found ++ ["Modern currency format"]
    else found in
  Ok found.

(** The three accumulators of [check_contamination]. *)
Record tally : Type := {
  tally_reasons : list string;
  tally_matched : list string;
  tally_confidence : float;
}.

(** [text_lower.find(term)] as the integer Python returns. *)
Definition find_index (p s : string) : Z :=
  match find p s with Some i => Z.of_nat i | None => -1 end.

(** One round of [for term in anachronisms]. [context] is computed and not
    used, as in the source. *)
Definition note_term (text_lower : string) (context_window : Z) (t : tally)
    (term : string) : tally :=
  if contains term text_lower then
    let idx := find_index term text_lower in
    let context :=
      slice text_lower (Z.max 0 (idx - context_window))
            (idx + len term + context_window) in
    {| tally_reasons :=
         tally_reasons t ++ ["Anachronistic term '" +:+ term +:+ "' found"];
       tally_matched := tally_matched t ++ [term];
       tally_confidence := min 1.0 (tally_confidence t + 0.2) |}
  else t.

(** One round of [for ref in modern_refs]. *)
Definition note_ref (t : tally) (ref : string) : tally :=
  {| tally_reasons := tally_reasons t ++ [ref];
     tally_matched := tally_matched t;
     tally_confidence := min 1.0 (tally_confidence t + 0.3) |}.

Definition intro_markers : list string :=
  ["introduction by"; "edited by"; "annotated by"; "foreword by"; "notes by"].

(** One round of [for marker in intro_markers]. *)
Definition note_marker (text_lower : string) (t : tally) (marker : string) : tally :=
  if contains marker (slice text_lower 0 5000) then
    {| tally_reasons :=
         tally_reasons t ++ ["Possible modern annotation: '" +:+ marker +:+ "'"];
       tally_matched := tally_matched t;
       tally_confidence := min 1.0 (tally_confidence t + 0.1) |}
  else t.

(** [a >= b] on floats *)
Definition ge (a b : float) : bool := (b <=? a)%float.

Definition default_context_window : Z := 100.
Definition default_threshold : float := 0.3.

Definition check_contamination (text : string) (cutoff_year : Z)
    (context_window : Z) (threshold : float) : result ContaminationResult :=
  let text_lower := lower text in
  let t := {| tally_reasons := []; tally_matched := []; tally_confidence := 0.0 |} in
  let anachronisms := get_all_anachronisms cutoff_year in
  let t := foldl (note_term text_lower context_window) t (elements anachronisms) in
  modern_refs ← check_for_modern_references text cutoff_year;
  let t := foldl note_ref t modern_refs in
  let t :=
    if contains "project gutenberg" (slice text_lower 0 2000)
    then foldl (note_marker text_lower) t intro_markers
    else t in
  Ok {| is_contaminated := ge (tally_confidence t) threshold;
        confidence := tally_confidence t;
        reasons := tally_reasons t;
        matched_terms := tally_matched t |}.

Definition header_end_markers : list string :=
  ["*** START OF THIS PROJECT GUTENBERG";
   "*** START OF THE PROJECT GUTENBERG";
   "*END*THE SMALL PRINT";
   "END OF THE PROJECT GUTENBERG HEADER"].

Definition footer_start_markers : list string :=
  ["*** END OF THIS PROJECT GUTENBERG";
   "*** END OF THE PROJECT GUTENBERG";
   "End of Project Gutenberg";
   "End of the Project Gutenberg"].

(** The header loop: the first marker of the list that occurs decides, and
    the loop breaks whether or not a line end follows it. *)
Fixpoint remove_header (markers : list string) (text : string) : string :=
  match markers with
  | [] => text
  | marker :: markers' =>
      match find (upper marker) (upper text) with
      | Some idx =>
          match find_from newline text idx with
          | Some end_idx => str_drop (S end_idx) text
          | None => text
          end
      | None => remove_header markers' text
      end
  end.

(** The footer loop. *)
Fixpoint remove_footer (markers : list string) (text : string) : string :=
  match markers with
  | [] => text
  | marker :: markers' =>
      match find (upper marker) (upper text) with
      | Some idx => str_take idx text
      | None => remove_footer markers' text
      end
  end.

Definition clean_gutenberg_headers (text : string) : string :=
  let text := remove_header header_end_markers text in
  let text := remove_footer footer_start_markers text in
  strip text.

(** The [stats] dict of [batch_check_contamination]. *)
Record batch_stats : Type := {
  total : Z;
  clean : Z;
  contaminated : Z;
  contamination_reasons : gmap string Z;
}.

(** [counts[reason] = counts.get(reason, 0) + 1] *)
Definition count_reason (counts : gmap string Z) (reason : string) : gmap string Z :=
  <[reason := default 0 (counts !! reason) + 1]> counts.

(** One round of [for text in texts]. *)
Definition batch_round (cutoff_year : Z) (return_clean : bool)
    (acc : list string * batch_stats) (text : string)
    : result (list string * batch_stats) :=
  let '(clean_texts, stats) := acc in
  verdict ← check_contamination text cutoff_year default_context_window default_threshold;
  if negb (is_contaminated verdict) then
    Ok (if return_clean then clean_texts ++ [text] else clean_texts,
        {| total := total stats;
           clean := clean stats + 1;
           contaminated := contaminated stats;
           contamination_reasons := contamination_reasons stats |})
  else
    Ok (clean_texts,
        {| total := total stats;
           clean := clean stats;
           contaminated := contaminated stats + 1;
           contamination_reasons :=
             foldl count_reason (contamination_reasons stats) (reasons verdict) |}).

Fixpoint batch_rounds (cutoff_year : Z) (return_clean : bool) (texts : list string)
    (acc : list string * batch_stats) : result (list string * batch_stats) :=
  match texts with
  | [] => Ok acc
  | text :: texts' =>
      acc' ← batch_round cutoff_year return_clean acc text;
      batch_rounds cutoff_year return_clean texts' acc'
  end.

Definition batch_check_contamination (texts : list string) (cutoff_year : Z)
    (return_clean : bool) : result (list string * batch_stats) :=
  batch_rounds cutoff_year return_clean texts
    ([], {| total := Z.of_nat (length texts);
            clean := 0;
            contaminated := 0;
            contamination_reasons := ∅ |}).

(** ** The [random] module

    The generator behind [random.seed] and [random.shuffle] is library code:
    it is a parameter of the development. [seeded a] is the state that
    [random.seed(a)] installs, whatever the state was before; [randbelow g n]
    draws an index below [n] and advances the state. *)

Class Random : Type := {
  generator : Type;
  seeded : Z -> generator;
  randbelow : generator -> nat -> nat * generator;
  randbelow_lt : forall g n, (0 < n)%nat -> (fst (randbelow g n) < n)%nat;
}.

(** [x[i], x[j] = x[j], x[i]]; both indices are in range where it is used. *)
Definition swap {A : Type} (x : list A) (i j : nat) : list A :=
  match x !! i, x !! j with
  | Some a, Some b => <[i := b]> (<[j := a]> x)
  | _, _ => x
  end.

Section Shuffle.
Context `{R : Random}.

(** [random.seed(a)] *)
Definition random_seed (a : Z) (g : generator) : generator := seeded a.

(** Modelled from CPython's [random.shuffle]:
    [for i in reversed(range(1, len(x))): j = randbelow(i + 1); swap]. *)
Fixpoint shuffle_from {A : Type} (i : nat) (x : list A) (g : generator)
    : list A * generator :=
  match i with
  | O => (x, g)
  | S i' =>
      let '(j, g') := randbelow g (S i) in
      shuffle_from i' (swap x i j) g'
  end.

(** [random.shuffle(x)] *)
Definition random_shuffle {A : Type} (x : list A) (g : generator)
    : list A * generator :=
  shuffle_from (length x - 1) x g.
End Shuffle.

(** ** shard_packager.py *)

(** A record of a JSONL file as [json.loads] returns it: the value under
    ['text'] and the value under ['source'], each absent or a string. *)
Record json_record : Type := {
  record_text : option string;
  record_source : option string;
}.

(** A line of a JSONL file after [line.strip()]: empty, rejected by
    [json.loads] with [JSONDecodeError], or a record. *)
Inductive jsonl_line : Type :=
| BlankLine
| MalformedLine
| RecordLine (record : json_record).

(** What a path of [input_files] leads to: no file, or the lines of one. *)
Definition input_file : Type := option (list jsonl_line).

(** The body of the loop over the lines of a file: [None] for a line that is
    passed over, [Some text] for a text that is yielded. *)
Definition iter_line (cutoff_year : Z) (clean_headers check_contam : bool)
    (line : jsonl_line) : result (option string) :=
  match line with
  | BlankLine => Ok None
  | MalformedLine => Ok None
  | RecordLine record =>
      let text := default "" (record_text record) in
      if String.eqb text "" || (len text <? 100) then Ok None
      else
        let text :=
          if clean_headers && bool_decide (record_source record = Some "gutenberg")
          then clean_gutenberg_headers text
          else text in
        if check_contam then
          verdict ← check_contamination text cutoff_year
                      default_context_window default_threshold;
          if is_contaminated verdict then Ok None else Ok (Some text)
        else Ok (Some text)
  end.

Fixpoint iter_lines (cutoff_year : Z) (clean_headers check_contam : bool)
    (lines : list jsonl_line) : result (list string) :=
  match lines with
  | [] => Ok []
  | line :: lines' =>
      y ← iter_line cutoff_year clean_headers check_contam line;
      ys ← iter_lines cutoff_year clean_headers check_contam lines';
      Ok (option_list y ++ ys)
  end.

(** The texts [iter_jsonl_texts] yields, in order. *)
Fixpoint iter_jsonl_texts (input_files : list input_file) (cutoff_year : Z)
    (clean_headers check_contam : bool) : result (list string) :=
  match input_files with
  | [] => Ok []
  | None :: files' => iter_jsonl_texts files' cutoff_year clean_headers check_contam
  | Some lines :: files' =>
      ys ← iter_lines cutoff_year clean_headers check_contam lines;
      zs ← iter_jsonl_texts files' cutoff_year clean_headers check_contam;
      Ok (ys ++ zs)
  end.

(** The [stats] dict; its four keys are fixed. *)
Record stats : Type := {
  total_docs : Z;
  total_chars : Z;
  num_shards : Z;
  rejected_contamination : Z;
}.

(** A parquet file as [pq.write_table] receives it. [shard_final] tells the
    flush after the loop from a shard sealed inside it. *)
Record shard : Type := {
  shard_index : Z;
  shard_docs : list string;
  shard_chars : Z;
  shard_row_group_size : Z;
  shard_final : bool;
}.

(** The variables of the accumulation loop and the files written so far. *)
Record packer : Type := {
  buffer_docs : list string;
  buffer_chars : Z;
  next_index : Z;
  run_stats : stats;
  written : list shard;
}.

(** [max_shards and shard_index >= max_shards] *)
Definition cap_reached (max_shards : option Z) (index : Z) : bool :=
  match max_shards with
  | None => false
  | Some m => negb (m =? 0) && (index >=? m)
  end.

(** [a % b] on integers; Python's remainder takes the sign of the divisor,
    as [Z.modulo] does, and raises on a zero divisor. *)
Definition py_mod (a b : Z) : result Z :=
  if b =? 0 then Raise ZeroDivisionError else Ok (a mod b).

(** [for text in all_texts: ...], with its [break]. *)
Fixpoint accumulate (chars_per_shard row_group_size : Z) (max_shards : option Z)
    (texts : list string) (p : packer) : result packer :=
  match texts with
  | [] => Ok p
  | text :: texts' =>
      if cap_reached max_shards (next_index p) then Ok p
      else
        let docs := buffer_docs p ++ [text] in
        let chars := buffer_chars p + len text in
        let st := {| total_docs := total_docs (run_stats p) + 1;
                     total_chars := total_chars (run_stats p) + len text;
                     num_shards := num_shards (run_stats p);
                     rejected_contamination := rejected_contamination (run_stats p) |} in
        let collected_enough := chars >=? chars_per_shard in
        r ← py_mod (Z.of_nat (length docs)) row_group_size;
        let docs_aligned := r =? 0 in
        if collected_enough && docs_aligned then
          accumulate chars_per_shard row_group_size max_shards texts'
            {| buffer_docs := [];
               buffer_chars := 0;
               next_index := next_index p + 1;
               run_stats := {| total_docs := total_docs st;
                               total_chars := total_chars st;
                               num_shards := num_shards st + 1;
                               rejected_contamination := rejected_contamination st |};
               written := written p ++
                 [{| shard_index := next_index p;
                     shard_docs := docs;
                     shard_chars := chars;
                     shard_row_group_size := row_group_size;
                     shard_final := false |}] |}
        else
          accumulate chars_per_shard row_group_size max_shards texts'
            {| buffer_docs := docs;
               buffer_chars := chars;
               next_index := next_index p;
               run_stats := st;
               written := written p |}
  end.

(** [if shard_docs and (max_shards is None or shard_index < max_shards)] *)
Definition flush_allowed (max_shards : option Z) (p : packer) : bool :=
  negb (bool_decide (buffer_docs p = [])) &&
  match max_shards with
  | None => true
  | Some m => next_index p <? m
  end.

(** The final shard, written after the loop. *)
Definition flush (row_group_size : Z) (max_shards : option Z) (p : packer) : packer :=
  if flush_allowed max_shards p then
    {| buffer_docs := buffer_docs p;
       buffer_chars := buffer_chars p;
       next_index := next_index p;
       run_stats := {| total_docs := total_docs (run_stats p);
                       total_chars := total_chars (run_stats p);
                       num_shards := num_shards (run_stats p) + 1;
                       rejected_contamination := rejected_contamination (run_stats p) |};
       written := written p ++
         [{| shard_index := next_index p;
             shard_docs := buffer_docs p;
             shard_chars := buffer_chars p;
             shard_row_group_size :=
               Z.min row_group_size (Z.of_nat (length (buffer_docs p)));
             shard_final := true |}] |}
  else p.

(** What a run leaves behind: the dict it returns, the shard files in the
    order they were written, and [stats.json] when it was written. *)
Record outcome : Type := {
  returned : stats;
  shards : list shard;
  stats_file : option stats;
}.

Definition initial_stats : stats :=
  {| total_docs := 0; total_chars := 0; num_shards := 0; rejected_contamination := 0 |}.

Section Packager.
Context `{R : Random}.

Definition package_shards (g : generator) (input_files : list input_file)
    (cutoff_year chars_per_shard row_group_size shuffle_seed : Z)
    (max_shards : option Z) : result outcome :=
  let st := initial_stats in
  all_texts ← iter_jsonl_texts input_files cutoff_year true true;
  match all_texts with
  | [] => Ok {| returned := st; shards := []; stats_file := None |}
  | _ =>
      let g := random_seed shuffle_seed g in
      let '(all_texts, g) := random_shuffle all_texts g in
      p ← accumulate chars_per_shard row_group_size max_shards all_texts
            {| buffer_docs := []; buffer_chars := 0; next_index := 0;
               run_stats := st; written := [] |};
      let p := flush row_group_size max_shards p in
      Ok {| returned := run_stats p;
            shards := written p;
            stats_file := Some (run_stats p) |}
  end.
End Packager.

Definition default_chars_per_shard : Z := 250000000.
Definition default_row_group_size : Z := 1024.
Definition default_shuffle_seed : Z := 42.

(** A small linear congruential generator on which the model can be run. It
    stands in for Python's Mersenne Twister, which the development does not
    depend on. *)
#[local] Program Instance lcg : Random := {|
  generator := Z;
  seeded a := a;
  randbelow g n :=
    let g' := (1103515245 * g + 12345) mod 2147483648 in
    (Z.to_nat (g' mod Z.of_nat n), g');
|}.
Next Obligation.
  intros g n Hn; simpl.
  pose proof (Z.mod_pos_bound ((1103515245 * g + 12345) mod 2147483648) (Z.of_nat n)).
  lia.
Qed.

(** A text of [n] copies of the character [c]. *)
Fixpoint replicate_char (n : nat) (c : ascii) : string :=
  match n with
  | O => EmptyString
  | S n' => String c (replicate_char n' c)
  end.

(** A record of 100 characters, all of them [c], from no named source. *)
Definition doc (c : ascii) : jsonl_line :=
  RecordLine {| record_text := Some (replicate_char 100 c); record_source := None |}.

(** ** Notions the statements below use *)

(** A year token: four characters, all of them digits. *)
Definition year_token (m : string) : Prop :=
  exists a b c d,
    m = String a (String b (String c (String d EmptyString))) /\
    is_digit a = true /\ is_digit b = true /\ is_digit c = true /\ is_digit d = true.

(** The number a year token stands for. *)
Definition year_value (m : string) : Z :=
  match int m with Ok y => y | Raise _ => 0 end.

(** The years above the cutoff among the year tokens of a text, in order. *)
Definition late_years (text : string) (cutoff_year : Z) : list Z :=
  filter (fun y => cutoff_year < y) (year_value <$> finditer year_pattern text).

(** The reason appended for a year above the cutoff. *)
Definition year_reason (year : Z) : string := "Year reference: " +:+ str_of_int year.

(** The fixed reasons, one per pattern that is found. *)
Definition pattern_reasons (text : string) : list string :=
  (if search modern_date_pattern text then ["Modern date format"] else []) ++
  (if search url_pattern (lower text) then ["URL or email address"] else []) ++
  (if search currency_pattern text then ["Modern currency format"] else []).

(** The tally before the first loop. *)
Definition empty_tally : tally :=
  {| tally_reasons := []; tally_matched := []; tally_confidence := 0.0 |}.

(** The tally after the loop over the anachronistic terms. *)
Definition terms_tally (text : string) (cutoff_year context_window : Z) : tally :=
  foldl (note_term (lower text) context_window) empty_tally
        (elements (get_all_anachronisms cutoff_year)).

(** The annotation scan, from the tally it receives. *)
Definition markers_tally (text : string) (t : tally) : tally :=
  if contains "project gutenberg" (slice (lower text) 0 2000)
  then foldl (note_marker (lower text)) t intro_markers
  else t.

(** The verdict read off the final tally. *)
Definition verdict_of (threshold : float) (t : tally) : ContaminationResult :=
  {| is_contaminated := ge (tally_confidence t) threshold;
     confidence := tally_confidence t;
     reasons := tally_reasons t;
     matched_terms := tally_matched t |}.

(** One increment of the confidence, capped at 1.0. *)
Definition bump (step : float) (c : float) : float := min 1.0 (c + step).

(** The verdict of a text on which nothing was found, for a threshold that
    the confidence 0 does not reach. *)
Definition clean_verdict : ContaminationResult :=
  {| is_contaminated := false; confidence := 0.0; reasons := []; matched_terms := [] |}.

(** No marker of either list occurs in the text, case apart. *)
Definition marker_free (text : string) : bool :=
  forallb (fun marker => negb (contains (upper marker) (upper text)))
          (header_end_markers ++ footer_start_markers).

(** A text as Project Gutenberg closes its older files: a line that begins
    [End of the Project Gutenberg], then the starred end line. *)
Definition gutenberg_ending : string :=
  "Finis." +:+ newline +:+
  "End of the Project Gutenberg EBook of Walden" +:+ newline +:+
  "*** END OF THIS PROJECT GUTENBERG EBOOK WALDEN ***".

(** A text with a header line and a footer line around one line of content. *)
Definition gutenberg_wrapped : string :=
  "*** START OF THIS PROJECT GUTENBERG EBOOK WALDEN ***" +:+ newline +:+
  "  I went to the woods." +:+ newline +:+
  "*** END OF THIS PROJECT GUTENBERG EBOOK WALDEN ***".

(** The text a record is yielded as: cleaned when headers are cleaned and
    the source is Gutenberg, as it is otherwise. *)
Definition prepared (clean_headers : bool) (record : json_record) (raw : string) : string :=
  if clean_headers && bool_decide (record_source record = Some "gutenberg")
  then clean_gutenberg_headers raw
  else raw.

(** The text [y] is yielded from a record of one of the files, and the raw
    text of that record has at least 100 characters. *)
Definition from_long_record (input_files : list input_file) (clean_headers : bool)
    (y : string) : Prop :=
  exists lines record raw,
    Some lines ∈ input_files /\ RecordLine record ∈ lines /\
    record_text record = Some raw /\ raw <> "" /\ 100 <= len raw /\
    y = prepared clean_headers record raw.

(** The claim's count: the records that pass the length test and that the
    contamination check of [package_shards] flags. *)
Definition flagged (cutoff_year : Z) (line : jsonl_line) : bool :=
  match line with
  | RecordLine record =>
      let raw := default "" (record_text record) in
      negb (String.eqb raw "" || (len raw <? 100)) &&
      match check_contamination (prepared true record raw) cutoff_year
              default_context_window default_threshold with
      | Ok verdict => is_contaminated verdict
      | Raise _ => false
      end
  | _ => false
  end.

Definition count_flagged (input_files : list input_file) (cutoff_year : Z) : Z :=
  Z.of_nat (length (filter (fun line => flagged cutoff_year line = true)
                           (concat (omap id input_files)))).

(** A record whose text names a web site after 100 other characters. *)
Definition web_doc : jsonl_line :=
  RecordLine {| record_text := Some (replicate_char 100 "a" +:+ " see www.example.com");
                record_source := None |}.

(** A record whose text is too short to be kept. *)
Definition short_doc : jsonl_line :=
  RecordLine {| record_text := Some "Too short."; record_source := None |}.

(** The characters of a list of documents. *)
Definition total_len (docs : list string) : Z := foldr (fun d n => len d + n) 0 docs.

(** A shard sealed inside the loop: enough characters, whole row groups. *)
Definition sealed_ok (chars_per_shard row_group_size : Z) (sh : shard) : Prop :=
  shard_final sh = false /\
  shard_chars sh = total_len (shard_docs sh) /\
  shard_chars sh >= chars_per_shard /\
  (row_group_size | Z.of_nat (length (shard_docs sh))).

(** The input of five documents of 100 characters each. *)
Definition five_docs : list input_file :=
  [Some [doc "a"; doc "b"; BlankLine; doc "c"; doc "d"; doc "e"]].

(** The input of one document that is kept and one that names a web site. *)
Definition kept_and_flagged : list input_file := [Some [doc "a"; web_doc]].

(** Two inputs with the same documents, in the two orders. *)
Definition docs_ab : list input_file := [Some [doc "a"; doc "b"]].
Definition docs_ba : list input_file := [Some [doc "b"; doc "a"]].

(** The documents of [docs_ab] spread over two files, a missing file between
    them. *)
Definition docs_ab_split : list input_file :=
  [Some [doc "a"; MalformedLine]; None; Some [BlankLine; doc "b"]].

(** ** oldbailey_download.py *)

(** [t(\d{4})\d{4}] *)
Definition trial_pattern : regex :=
  Concat (Char "t") (Concat (exactly 4 digit) (exactly 4 digit)).

(** [re.match] tries the pattern at the beginning of the string only;
    group 1 of [trial_pattern] is the four characters after the ["t"]. *)
Definition parse_trial_date (trial_id : string) : result (option Z) :=
  match match_here trial_pattern None trial_id with
  | Some _ =>
      year ← int (slice trial_id 1 5);
      Ok (Some year)
  | None => Ok None
  end.

(** ** gutenberg_download.py *)

Definition ANACHRONISM_TERMS : gmap Z (list string) :=
  {[ 1850 := [
        "telephone"; "electric light"; "automobile"; "airplane"; "radio";
        "photograph"; "typewriter"; "gramophone"; "phonograph" ];
     1900 := [
        "airplane"; "radio"; "television"; "computer"; "atomic";
        "world war"; "nazi"; "fascist"; "soviet"; "bolshevik" ];
     1913 := [
        "world war"; "nazi"; "fascist"; "soviet"; "bolshevik";
        "atomic bomb"; "nuclear"; "television"; "computer"; "hitler";
        "mussolini"; "stalin"; "holocaust"; "concentration camp" ];
     1950 := [
        "internet"; "computer"; "smartphone"; "email"; "website";
        "vietnam war"; "moon landing"; "apollo"; "sputnik" ] ]}.

(** [if year >= cutoff_year: terms_to_check.update(terms)] *)
Definition update_terms (cutoff_year : Z) (terms_to_check : gset string)
    (item : Z * list string) : gset string :=
  let '(year, terms) := item in
  if year >=? cutoff_year then terms_to_check ∪ list_to_set terms
  else terms_to_check.

Definition check_for_anachronisms (text : string) (cutoff_year : Z) : list string :=
  let text_lower := lower text in
  let terms_to_check :=
    foldl (update_terms cutoff_year) ∅ (map_to_list ANACHRONISM_TERMS) in
  foldl (fun found term => if contains term text_lower then found ++ [term] else found)
        [] (elements terms_to_check).

(** ** Notions of the further properties *)

(** The thresholds of the lexicon. *)
Definition lexicon_years : list Z := [1850; 1900; 1913].

(** The verdict of a text under the defaults of [check_contamination], in
    the closed form of [check_contamination_ok]; [check_contamination_default]
    below shows that it is what the call returns. *)
Definition default_verdict (cutoff_year : Z) (text : string) : ContaminationResult :=
  verdict_of default_threshold
    (markers_tally text
       (foldl note_ref (terms_tally text cutoff_year default_context_window)
          ((year_reason <$> late_years text cutoff_year) ++ pattern_reasons text))).

(** The text is flagged under the defaults. *)
Definition flagged_text (cutoff_year : Z) (text : string) : bool :=
  is_contaminated (default_verdict cutoff_year text).

(** The last character of a text. *)
Fixpoint last_char (s : string) : option ascii :=
  match s with
  | EmptyString => None
  | String c EmptyString => Some c
  | String _ s' => last_char s'
  end.

(** The documents of the shard files of a run, in the order of the files. *)
Definition docs_written (o : outcome) : list string :=
  concat (shard_docs <$> shards o).

(** The line is a record whose text passes the length test. *)
Definition long_enough (line : jsonl_line) : bool :=
  match line with
  | RecordLine record =>
      let raw := default "" (record_text record) in
      negb (String.eqb raw "" || (len raw <? 100))
  | _ => false
  end.

(** The lines of the files that exist, file after file. *)
Definition input_lines (input_files : list input_file) : list jsonl_line :=
  concat (omap id input_files).

(** Five texts, the second and the fourth of them flagged at cutoff 1913. *)
Definition batch_sample : list string :=
  ["The king rode his horse to the castle in 1812.";
   "Hitler invaded Poland in 1939.";
   "The telegraph was a remarkable invention.";
   "Visit our website at www.example.com for more info.";
   "The airplane flew over the city."].

(** The reason appended for a term of the lexicon. *)
Definition term_reason (term : string) : string :=
  "Anachronistic term '" +:+ term +:+ "' found".

(** A year token of the centuries the pattern names: ["19"] or ["20"], then
    two digits. *)
Definition century_token (m : string) : Prop :=
  exists c d,
    (m = String "1" (String "9" (String c (String d EmptyString))) \/
     m = String "2" (String "0" (String c (String d EmptyString)))) /\
    is_digit c = true /\ is_digit d = true.

(** The three reasons that do not name a year. *)
Definition fixed_reasons : list string :=
  ["Modern date format"; "URL or email address"; "Modern currency format"].

(** The reasons of the verdicts of the flagged texts of a list, in order. *)
Definition flagged_reasons (cutoff_year : Z) (texts : list string) : list string :=
  concat ((fun text => reasons (default_verdict cutoff_year text))
            <$> filter (fun text => flagged_text cutoff_year text = true) texts).

(** What the reader does with one line: the text it yields, if any. *)
Definition yielded (cutoff_year : Z) (clean_headers check_contam : bool)
    (line : jsonl_line) : option string :=
  match line with
  | RecordLine record =>
      let raw := default "" (record_text record) in
      if String.eqb raw "" || (len raw <? 100) then None
      else
        let text := prepared clean_headers record raw in
        if check_contam && flagged_text cutoff_year text then None else Some text
  | _ => None
  end.

(** What the accumulation loop keeps true of its variables. *)
Definition packer_ok (max_shards : option Z) (p : packer) : Prop :=
  shard_index <$> written p = Z.of_nat <$> seq 0 (length (written p)) /\
  next_index p = Z.of_nat (length (written p)) /\
  num_shards (run_stats p) = next_index p /\
  total_docs (run_stats p)
  = Z.of_nat (length (concat (shard_docs <$> written p)) + length (buffer_docs p)) /\
  total_chars (run_stats p)
  = total_len (concat (shard_docs <$> written p)) + buffer_chars p /\
  buffer_chars p = total_len (buffer_docs p) /\
  Forall (fun sh => shard_docs sh <> [] /\ shard_chars sh = total_len (shard_docs sh))
         (written p) /\
  (buffer_docs p <> [] -> forall m, max_shards = Some m -> m <> 0 -> next_index p < m).

(** The variables of the loop before its first round. *)
Definition initial_packer : packer :=
  {| buffer_docs := []; buffer_chars := 0; next_index := 0;
     run_stats := initial_stats; written := [] |}.

(** The exchange of two positions. *)
Definition transpose (i j k : nat) : nat :=
  if decide (k = i) then j else if decide (k = j) then i else k.

(** No row-group boundary strictly inside the list has enough characters:
    the list could not have been sealed earlier. *)
Definition sealed_first (chars_per_shard row_group_size : Z) (docs : list string) : Prop :=
  forall k : nat,
    (0 < k < length docs)%nat -> (row_group_size | Z.of_nat k) ->
    total_len (take k docs) < chars_per_shard.

(** The same for the buffer, its full length included. *)
Definition buffer_open (chars_per_shard row_group_size : Z) (docs : list string) : Prop :=
  forall k : nat,
    (0 < k <= length docs)%nat -> (row_group_size | Z.of_nat k) ->
    total_len (take k docs) < chars_per_shard.



(** The terms that [check_for_anachronisms] looks for at a cutoff year. *)
Definition terms_to_check (cutoff_year : Z) : gset string :=
  foldl (update_terms cutoff_year) ∅ (map_to_list ANACHRONISM_TERMS).

(** * Properties *)

(** ** The lexicon *)

Section FoldInvariants.
Context {A B : Type} (f : A -> B -> A).

(** A property that every round keeps holds after the loop. *)
Lemma foldl_keeps (P : A -> Prop) (l : list B) (a : A) :
  (forall a b, P a -> P (f a b)) -> P a -> P (foldl f a l).
Proof.
  intros Hstep. revert a.
  induction l as [|b l IH]; intros a Ha; simpl; auto.
Qed.

(** The same for a relation between two loops over one list. *)
Lemma foldl_keeps2 (g : A -> B -> A) (Q : A -> A -> Prop) (l : list B) (a a' : A) :
  (forall a a' b, Q a a' -> Q (f a b) (g a' b)) -> Q a a' -> Q (foldl f a l) (foldl g a' l).
Proof.
  intros Hstep. revert a a'.
  induction l as [|b l IH]; intros a a' Ha; simpl; auto.
Qed.
End FoldInvariants.

(** Adding terms only grows the set, and does so monotonically. *)
Lemma add_term_grows (terms : gset string) (term : string) :
  terms ⊆ add_term terms term.
Proof. destruct term; simpl; [done | apply union_subseteq_l]. Qed.

Lemma add_term_mono (s1 s2 : gset string) (term : string) :
  s1 ⊆ s2 -> add_term s1 term ⊆ add_term s2 term.
Proof.
  intros Hs. destruct term; simpl; [done|].
  by apply union_mono_r.
Qed.

Lemma add_terms_grows (l : list string) (terms : gset string) :
  terms ⊆ foldl add_term terms l.
Proof.
  revert terms. induction l as [|t l IH]; intros terms; simpl; [done|].
  etrans; [apply add_term_grows | apply IH].
Qed.

Lemma add_year_mono (c1 c2 : Z) (s1 s2 : gset string) (item : Z * gset string) :
  c1 < c2 -> s2 ⊆ s1 -> add_year c2 s2 item ⊆ add_year c1 s1 item.
Proof.
  intros Hc Hs. destruct item as [year year_terms]; simpl.
  destruct (year >=? c2) eqn:H2.
  - assert (H1 : (year >=? c1) = true) by lia.
    rewrite H1.
    apply (foldl_keeps2 add_term add_term (fun a a' => a ⊆ a')); [|done].
    intros; by apply add_term_mono.
  - destruct (year >=? c1); [|done].
    etrans; [exact Hs | apply add_terms_grows].
Qed.

Lemma add_category_mono (c1 c2 : Z) (s1 s2 : gset string) (category : gmap Z (gset string)) :
  c1 < c2 -> s2 ⊆ s1 -> add_category c2 s2 category ⊆ add_category c1 s1 category.
Proof.
  intros Hc Hs. unfold add_category.
  apply (foldl_keeps2 (add_year c2) (add_year c1) (fun a a' => a ⊆ a')); [|done].
  intros; by apply add_year_mono.
Qed.

(** C7. For cutoff years [c1 < c2], every term that is anachronistic for
    [c2] is anachronistic for [c1]: [get_all_anachronisms c1] is a superset
    of [get_all_anachronisms c2]. *)
Theorem get_all_anachronisms_antitone (c1 c2 : Z) :
  c1 < c2 -> get_all_anachronisms c2 ⊆ get_all_anachronisms c1.
Proof.
  intros Hc. unfold get_all_anachronisms.
  apply (foldl_keeps2 (add_category c2) (add_category c1) (fun a a' => a ⊆ a')); [|done].
  intros; by apply add_category_mono.
Qed.

Lemma get_all_anachronisms_antitone_witness :
  1900 < 1913 /\ get_all_anachronisms 1913 ⊆ get_all_anachronisms 1900.
Proof. split; [lia | apply (get_all_anachronisms_antitone 1900 1913); lia]. Defined.

(** The two sets of the witness differ: the inclusion is strict there. *)
Lemma lexicon_1900_stricter :
  "airplane" ∈ get_all_anachronisms 1900 /\ "airplane" ∉ get_all_anachronisms 1913.
Proof. split; [by vm_compute | by vm_compute]. Qed.

(** No set of the lexicon holds the empty term. *)
Lemma add_term_nonempty (terms : gset string) (term : string) :
  "" ∉ terms -> "" ∉ add_term terms term.
Proof.
  intros H. destruct term as [|c term]; simpl; [done|].
  rewrite not_elem_of_union, not_elem_of_singleton. split; [done|].
  unfold lower; simpl. discriminate.
Qed.

(** [get_all_anachronisms] leaves the placeholders out. *)
Lemma get_all_anachronisms_nonempty (cutoff_year : Z) :
  "" ∉ get_all_anachronisms cutoff_year.
Proof.
  unfold get_all_anachronisms.
  apply (foldl_keeps _ (fun terms : gset string => "" ∉ terms)); [|apply not_elem_of_empty].
  intros terms category Hterms. unfold add_category.
  apply (foldl_keeps _ (fun terms : gset string => "" ∉ terms)); [|done].
  intros terms' [year year_terms] Hterms'; simpl.
  destruct (year >=? cutoff_year); [|done].
  apply (foldl_keeps _ (fun terms : gset string => "" ∉ terms)); [|done].
  intros; by apply add_term_nonempty.
Qed.

(** ** The year tokens *)

(** [int] accepts every string of digits. *)
Lemma int_digits_ok (s : string) (acc : Z) :
  (forall c, In c (list_ascii_of_string s) -> is_digit c = true) ->
  exists y, int_digits acc s = Ok y.
Proof.
  revert acc. induction s as [|c s IH]; intros acc H; simpl.
  - by eexists.
  - rewrite (H c) by (simpl; auto).
    apply IH. intros d Hd. apply H; simpl; auto.
Qed.

(** A match of [year_pattern] is four characters, all of them digits. *)
Lemma year_pattern_match (prev : option ascii) (s rest : string) :
  match_here year_pattern prev s = Some rest ->
  exists a b c d,
    s = String a (String b (String c (String d rest))) /\
    is_digit a = true /\ is_digit b = true /\ is_digit c = true /\ is_digit d = true.
Proof.
  unfold match_here, year_pattern; simpl.
  destruct (xorb _ _); [|discriminate].
  destruct s as [|a [|b [|c [|d s']]]]; simpl;
    repeat match goal with
           | |- context [Ascii.eqb ?x ?y] =>
               let E := fresh "E" in
               destruct (Ascii.eqb x y) eqn:E; [apply Ascii.eqb_eq in E; subst|]
           | |- context [if is_digit ?x then _ else _] =>
               let E := fresh "E" in destruct (is_digit x) eqn:E
           | |- context [xorb ?x ?y] => destruct (xorb x y)
           end; simpl; try discriminate;
    intros [= <-]; by repeat eexists.
Qed.

(** The text of a match of four characters, as [finditer_from] cuts it. *)
Lemma take_length_app (a b c d : ascii) (rest : string) :
  str_take (String.length (String a (String b (String c (String d rest)))) - String.length rest)
       (String a (String b (String c (String d rest))))
  = String a (String b (String c (String d EmptyString))).
Proof.
  simpl String.length.
  replace (S (S (S (S (String.length rest)))) - String.length rest)%nat with 4%nat by lia.
  reflexivity.
Qed.

(** Every match that [finditer] reports for [year_pattern] is a year token. *)
Lemma finditer_year_tokens (s : string) (skip : nat) (prev : option ascii) :
  Forall year_token (finditer_from year_pattern skip prev s).
Proof.
  revert skip prev. induction s as [|c s IH]; intros skip prev.
  - destruct skip; simpl; [|constructor].
    destruct (match_here year_pattern prev "") as [rest|] eqn:E; [|constructor].
    apply year_pattern_match in E as (?&?&?&?&?&_). discriminate.
  - destruct skip as [|skip]; cbn [finditer_from]; [|apply IH].
    destruct (match_here year_pattern prev (String c s)) as [rest|] eqn:E; [|apply IH].
    constructor; [|apply IH].
    apply year_pattern_match in E as (a&b&c'&d&Hs&Ha&Hb&Hc&Hd).
    rewrite Hs, take_length_app. by exists a, b, c', d.
Qed.

(** [int(match.group(1))] does not raise. *)
Lemma int_year_token (m : string) : year_token m -> exists y, int m = Ok y.
Proof.
  intros (a&b&c&d&->&Ha&Hb&Hc&Hd). unfold int.
  apply int_digits_ok. simpl. intros x [<-|[<-|[<-|[<-|[]]]]]; done.
Qed.

(** The loop over the year tokens appends one reason per year above the
    cutoff. *)
Lemma note_years (cutoff_year : Z) (tokens : list string) (found : list string) :
  Forall year_token tokens ->
  foldl (note_year cutoff_year) (Ok found) tokens
  = Ok (found ++ (year_reason <$> filter (fun y => cutoff_year < y) (year_value <$> tokens))).
Proof.
  intros H. revert found. induction H as [|m tokens Hm _ IH]; intros found.
  - simpl. by rewrite app_nil_r.
  - cbn [foldl]. rewrite fmap_cons.
    destruct (int_year_token m Hm) as [y Hy].
    assert (Hstep : note_year cutoff_year (Ok found) m
                    = Ok (if y >? cutoff_year then found ++ [year_reason y] else found)).
    { unfold note_year; simpl. rewrite Hy; simpl. by destruct (y >? cutoff_year). }
    rewrite Hstep. unfold year_value at 1. rewrite Hy.
    rewrite filter_cons. destruct (decide (cutoff_year < y)) as [Hlt|Hge].
    + assert (Hb : (y >? cutoff_year) = true) by lia. rewrite Hb.
      rewrite IH. simpl. by rewrite <- app_assoc.
    + assert (Hb : (y >? cutoff_year) = false) by lia. rewrite Hb.
      apply IH.
Qed.

(** [check_for_modern_references] never raises, and its list is the year
    reasons followed by the pattern reasons. *)
Lemma check_for_modern_references_ok (text : string) (cutoff_year : Z) :
  check_for_modern_references text cutoff_year
  = Ok ((year_reason <$> late_years text cutoff_year) ++ pattern_reasons text).
Proof.
  unfold check_for_modern_references, late_years, pattern_reasons, finditer.
  rewrite note_years by apply finditer_year_tokens. simpl.
  destruct (search modern_date_pattern text), (search url_pattern (lower text)),
    (search currency_pattern text); simpl; rewrite ?app_nil_r, <- ?app_assoc; reflexivity.
Qed.

(** ** The detector *)

(** [check_contamination] in closed form: it never raises. *)
Lemma check_contamination_ok (text : string) (cutoff_year context_window : Z)
    (threshold : float) :
  check_contamination text cutoff_year context_window threshold
  = Ok (verdict_of threshold
          (markers_tally text
             (foldl note_ref (terms_tally text cutoff_year context_window)
                ((year_reason <$> late_years text cutoff_year) ++ pattern_reasons text)))).
Proof.
  unfold check_contamination. rewrite check_for_modern_references_ok. reflexivity.
Qed.

(** Only the empty string occurs in the empty text. *)
Lemma contains_in_empty (c : ascii) (term : string) : contains (String c term) "" = false.
Proof. reflexivity. Qed.

(** On the empty text no term of the lexicon is found. *)
Lemma terms_tally_empty (cutoff_year context_window : Z) :
  terms_tally "" cutoff_year context_window = empty_tally.
Proof.
  unfold terms_tally.
  pose proof (get_all_anachronisms_nonempty cutoff_year) as Hne.
  assert (Hall : Forall (fun term => term <> "") (elements (get_all_anachronisms cutoff_year))).
  { apply Forall_forall. intros term Hin ->. apply Hne. by apply elem_of_elements. }
  induction Hall as [|term l Hterm _ IH]; simpl; [done|].
  destruct term as [|c term]; [done|].
  unfold note_term at 2. simpl lower. rewrite contains_in_empty. exact IH.
Qed.

(** A positive threshold is not reached by the confidence 0. *)
Lemma zero_below_threshold (threshold : float) :
  (0 <? threshold)%float = true -> ge 0 threshold = false.
Proof.
  unfold ge. rewrite ltb_spec, leb_spec.
  change (Prim2SF 0) with (S754_zero false).
  unfold SFltb, SFleb.
  destruct (Prim2SF threshold) as [[]|[]| |[] m e]; simpl; congruence.
Qed.

(** The loop over [modern_refs]: one reason and one increment of 0.3 for
    every entry. *)
Lemma note_refs (refs : list string) (t : tally) :
  tally_reasons (foldl note_ref t refs) = tally_reasons t ++ refs /\
  tally_matched (foldl note_ref t refs) = tally_matched t /\
  tally_confidence (foldl note_ref t refs)
  = Nat.iter (length refs) (bump 0.3) (tally_confidence t).
Proof.
  revert t. induction refs as [|ref refs IH]; intros t.
  - simpl. by rewrite app_nil_r.
  - cbn [foldl length]. destruct (IH (note_ref t ref)) as (Hr & Hm & Hc).
    rewrite Hr, Hm, Hc, Nat.iter_succ_r. simpl. by rewrite <- app_assoc.
Qed.

(** A reason that no year reason equals does not occur among them. *)
Lemma year_reason_not (ys : list Z) (reason : string) :
  (forall y, year_reason y <> reason) ->
  count_occ string_dec (year_reason <$> ys) reason = 0%nat.
Proof.
  intros H. induction ys as [|y ys IH]; [done|].
  rewrite fmap_cons. cbn [count_occ].
  destruct (string_dec (year_reason y) reason) as [E|_]; [by apply H in E | exact IH].
Qed.

(** Such a reason occurs at most once in the list of modern references. *)
Lemma pattern_reasons_once (text : string) (reason : string) :
  (forall y, year_reason y <> reason) ->
  forall ys,
    (count_occ string_dec ((year_reason <$> ys) ++ pattern_reasons text) reason <= 1)%nat.
Proof.
  intros H ys. rewrite count_occ_app, year_reason_not by done.
  unfold pattern_reasons.
  destruct (search modern_date_pattern text), (search url_pattern (lower text)),
    (search currency_pattern text); cbn [app count_occ];
    repeat match goal with
           | |- context [string_dec ?a ?b] =>
               destruct (string_dec a b); try discriminate; subst
           end; lia.
Qed.

(** Scenario A of the specification: nothing is found, the year 1812 is not
    a token of the years 1900-2099. *)
Example king_scenario :
  check_contamination "The king rode his horse to the castle in 1812." 1913
    default_context_window default_threshold
  = Ok clean_verdict.
Proof. vm_compute; reflexivity. Qed.

(** Scenario B: one term and one year above the cutoff, 0.2 + 0.3. *)
Example hitler_scenario :
  check_contamination "Hitler invaded Poland in 1939." 1913
    default_context_window default_threshold
  = Ok {| is_contaminated := true;
          confidence := 0.5;
          reasons := ["Anachronistic term 'hitler' found"; "Year reference: 1939"];
          matched_terms := ["hitler"] |}.
Proof. vm_compute; reflexivity. Qed.

(** C1. On ["The airplane flew over the city."] the detector finds the one
    term ['airplane'] at cutoff 1900, which brings the confidence to 0.2,
    below the default threshold 0.3: the verdict is not contaminated, where
    the self-test of the module announces a contaminated one. At cutoff
    1913 nothing is found and the verdict is not contaminated. *)
Theorem airplane_scenario :
  check_contamination "The airplane flew over the city." 1900
    default_context_window default_threshold
  = Ok {| is_contaminated := false;
          confidence := 0.2;
          reasons := ["Anachronistic term 'airplane' found"];
          matched_terms := ["airplane"] |} /\
  check_contamination "The airplane flew over the city." 1913
    default_context_window default_threshold
  = Ok clean_verdict.
Proof. split; vm_compute; reflexivity. Qed.

(** C3, as stated, fails: two year tokens above the cutoff give two reasons
    of the year category and two increments of 0.3. *)
Lemma two_years_two_reasons :
  exists v,
    check_contamination "In 1950 and 1960." 1913 default_context_window default_threshold
    = Ok v /\
    reasons v = ["Year reference: 1950"; "Year reference: 1960"] /\
    confidence v = bump 0.3 (bump 0.3 0) /\
    confidence v = 0.6%float.
Proof. eexists. split; [vm_compute; reflexivity|]. repeat split. Qed.

(** C3, amended. The list of [check_for_modern_references] is one year
    reason for every year token above the cutoff, followed by the reasons of
    the slash date, the URL or email and the currency patterns, each of
    which occurs at most once; in the verdict of [check_contamination] every
    entry of the list is one reason and one increment of 0.3, capped at 1.0. *)
Theorem modern_reference_contributions (text : string) (cutoff_year : Z) :
  exists refs,
    check_for_modern_references text cutoff_year = Ok refs /\
    refs = (year_reason <$> late_years text cutoff_year) ++ pattern_reasons text /\
    (count_occ string_dec refs "Modern date format" <= 1)%nat /\
    (count_occ string_dec refs "URL or email address" <= 1)%nat /\
    (count_occ string_dec refs "Modern currency format" <= 1)%nat /\
    forall context_window threshold,
      let before := terms_tally text cutoff_year context_window in
      let after := foldl note_ref before refs in
      check_contamination text cutoff_year context_window threshold
      = Ok (verdict_of threshold (markers_tally text after)) /\
      tally_reasons after = tally_reasons before ++ refs /\
      tally_confidence after
      = Nat.iter (length refs) (bump 0.3) (tally_confidence before).
Proof.
  eexists. split; [apply check_for_modern_references_ok|].
  split; [reflexivity|].
  repeat split.
  - apply pattern_reasons_once. intros y E. discriminate E.
  - apply pattern_reasons_once. intros y E. discriminate E.
  - apply pattern_reasons_once. intros y E. discriminate E.
  - apply check_contamination_ok.
  - apply note_refs.
  - apply note_refs.
Qed.

(** C8, as stated, fails at the threshold 0: the empty text has confidence
    0, which reaches that threshold, and the verdict is contaminated. *)
Lemma empty_text_threshold_zero :
  check_contamination "" 1913 default_context_window 0
  = Ok {| is_contaminated := true; confidence := 0; reasons := []; matched_terms := [] |}.
Proof. vm_compute; reflexivity. Qed.

(** C8, amended. [check_contamination] returns a verdict for every text,
    cutoff year, context window and threshold; on the empty text the verdict
    has confidence 0, no reasons and no matched terms, and it is not
    contaminated when the threshold is above 0. *)
Theorem check_contamination_returns (text : string) (cutoff_year context_window : Z)
    (threshold : float) :
  exists v,
    check_contamination text cutoff_year context_window threshold = Ok v /\
    (text = "" ->
     confidence v = 0%float /\ reasons v = [] /\ matched_terms v = [] /\
     is_contaminated v = ge 0 threshold /\
     ((0 <? threshold)%float = true -> v = clean_verdict)).
Proof.
  eexists. split; [apply check_contamination_ok|].
  intros ->. rewrite terms_tally_empty.
  change (late_years "" cutoff_year) with (@nil Z).
  repeat split.
  intros Hpos. unfold verdict_of, clean_verdict. simpl.
  f_equal. by apply zero_below_threshold.
Qed.

Lemma check_contamination_returns_witness :
  exists v,
    check_contamination "" 1913 default_context_window default_threshold = Ok v /\
    v = clean_verdict.
Proof.
  destruct (check_contamination_returns "" 1913 default_context_window default_threshold)
    as (v & Hv & Hempty).
  exists v. split; [exact Hv|].
  destruct (Hempty eq_refl) as (_ & _ & _ & _ & Hclean).
  apply Hclean. reflexivity.
Defined.

(** ** The header and footer stripper *)

(** [strip] is idempotent. *)
Lemma lstrip_idempotent (s : string) : lstrip (lstrip s) = lstrip s.
Proof.
  induction s as [|c s IH]; simpl; [done|].
  destruct (is_space c) eqn:E; [exact IH|].
  simpl. by rewrite E.
Qed.

Lemma rstrip_fixed_tail (c : ascii) (s : string) :
  rstrip (String c s) = String c s -> rstrip s = s.
Proof.
  simpl. destruct (rstrip s) as [|d r] eqn:E.
  - destruct (is_space c); [discriminate|]. by intros [= <-].
  - by intros [= <-].
Qed.

Lemma rstrip_idempotent (s : string) : rstrip (rstrip s) = rstrip s.
Proof.
  induction s as [|c s IH]; simpl; [done|].
  destruct (rstrip s) as [|d r] eqn:E.
  - destruct (is_space c) eqn:Ec; simpl; [done|]. by rewrite Ec.
  - cbn [rstrip] in *. by rewrite IH.
Qed.

(** Stripping on the left keeps a text free of trailing blanks. *)
Lemma rstrip_lstrip (s : string) : rstrip s = s -> rstrip (lstrip s) = lstrip s.
Proof.
  induction s as [|c s IH]; intros H; [done|].
  cbn [lstrip]. destruct (is_space c); [|exact H].
  apply IH. by apply rstrip_fixed_tail with c.
Qed.

Lemma strip_idempotent (s : string) : strip (strip s) = strip s.
Proof.
  unfold strip.
  rewrite (rstrip_lstrip (rstrip s)) by apply rstrip_idempotent.
  apply lstrip_idempotent.
Qed.

(** Without a marker in the text, neither loop changes it. *)
Lemma remove_header_absent (markers : list string) (text : string) :
  forallb (fun marker => negb (contains (upper marker) (upper text))) markers = true ->
  remove_header markers text = text.
Proof.
  induction markers as [|marker markers IH]; simpl; [done|].
  intros [Hm Hrest]%andb_true_iff. unfold contains in Hm.
  destruct (find (upper marker) (upper text)); [discriminate|]. by apply IH.
Qed.

Lemma remove_footer_absent (markers : list string) (text : string) :
  forallb (fun marker => negb (contains (upper marker) (upper text))) markers = true ->
  remove_footer markers text = text.
Proof.
  induction markers as [|marker markers IH]; simpl; [done|].
  intros [Hm Hrest]%andb_true_iff. unfold contains in Hm.
  destruct (find (upper marker) (upper text)); [discriminate|]. by apply IH.
Qed.

(** C6, as stated, fails: the first pass cuts at the starred end line and
    leaves the [End of the Project Gutenberg] line, which the second pass
    takes for a footer. *)
Lemma clean_gutenberg_headers_not_idempotent :
  clean_gutenberg_headers gutenberg_ending
  = "Finis." +:+ newline +:+ "End of the Project Gutenberg EBook of Walden" /\
  clean_gutenberg_headers (clean_gutenberg_headers gutenberg_ending) = "Finis." /\
  clean_gutenberg_headers (clean_gutenberg_headers gutenberg_ending)
  <> clean_gutenberg_headers gutenberg_ending.
Proof. repeat split; vm_compute; congruence. Qed.

(** C6, amended. When the stripped text holds none of the header or footer
    markers any more, stripping it again changes nothing. *)
Theorem clean_gutenberg_headers_twice (t : string) :
  marker_free (clean_gutenberg_headers t) = true ->
  clean_gutenberg_headers (clean_gutenberg_headers t) = clean_gutenberg_headers t.
Proof.
  unfold marker_free. rewrite forallb_app.
  intros [Hh Hf]%andb_true_iff.
  unfold clean_gutenberg_headers at 1.
  rewrite (remove_header_absent _ _ Hh), (remove_footer_absent _ _ Hf).
  apply strip_idempotent.
Qed.

Lemma clean_gutenberg_headers_twice_witness :
  marker_free (clean_gutenberg_headers gutenberg_wrapped) = true /\
  clean_gutenberg_headers gutenberg_wrapped = "I went to the woods." /\
  clean_gutenberg_headers (clean_gutenberg_headers gutenberg_wrapped)
  = clean_gutenberg_headers gutenberg_wrapped.
Proof.
  split; [vm_compute; reflexivity|].
  split; [vm_compute; reflexivity|].
  apply (clean_gutenberg_headers_twice gutenberg_wrapped). vm_compute; reflexivity.
Defined.

(** ** Reading the input *)

(** No line makes the reader raise. *)
Lemma iter_line_ok (cutoff_year : Z) (clean_headers check_contam : bool) (line : jsonl_line) :
  exists y, iter_line cutoff_year clean_headers check_contam line = Ok y.
Proof.
  destruct line as [| |record]; simpl; try by eexists.
  destruct (_ || _); [by eexists|].
  destruct check_contam; [|by eexists].
  rewrite check_contamination_ok; simpl.
  destruct (ge _ _); by eexists.
Qed.

Lemma iter_lines_ok (cutoff_year : Z) (clean_headers check_contam : bool)
    (lines : list jsonl_line) :
  exists ys, iter_lines cutoff_year clean_headers check_contam lines = Ok ys.
Proof.
  induction lines as [|line lines [ys IH]]; simpl; [by eexists|].
  destruct (iter_line_ok cutoff_year clean_headers check_contam line) as [y Hy].
  rewrite Hy, IH; simpl. by eexists.
Qed.

(** Reading the input never raises. *)
Lemma iter_jsonl_texts_ok (input_files : list input_file) (cutoff_year : Z)
    (clean_headers check_contam : bool) :
  exists ys, iter_jsonl_texts input_files cutoff_year clean_headers check_contam = Ok ys.
Proof.
  induction input_files as [|[lines|] files [zs IH]]; simpl; [by eexists| |by eexists].
  destruct (iter_lines_ok cutoff_year clean_headers check_contam lines) as [ys Hys].
  rewrite Hys, IH; simpl. by eexists.
Qed.

(** A line that yields a text is a record with a long enough text. *)
Lemma iter_line_yields (cutoff_year : Z) (clean_headers check_contam : bool)
    (line : jsonl_line) (y : string) :
  iter_line cutoff_year clean_headers check_contam line = Ok (Some y) ->
  exists record raw,
    line = RecordLine record /\ record_text record = Some raw /\
    raw <> "" /\ 100 <= len raw /\ y = prepared clean_headers record raw.
Proof.
  destruct line as [| |record]; simpl; try discriminate.
  destruct (record_text record) as [raw|] eqn:Htext; simpl; [|discriminate].
  destruct (String.eqb raw "") eqn:Hempty; simpl; [discriminate|].
  destruct (len raw <? 100) eqn:Hlen; [discriminate|].
  intros H. exists record, raw. repeat split; try done.
  - intros ->. discriminate.
  - lia.
  - unfold prepared. destruct check_contam.
    + rewrite check_contamination_ok in H; simpl in H.
      destruct (ge _ _); congruence.
    + congruence.
Qed.

Lemma iter_lines_yield (cutoff_year : Z) (clean_headers check_contam : bool)
    (lines : list jsonl_line) (ys : list string) :
  iter_lines cutoff_year clean_headers check_contam lines = Ok ys ->
  Forall (fun y => exists record raw,
            RecordLine record ∈ lines /\ record_text record = Some raw /\
            raw <> "" /\ 100 <= len raw /\ y = prepared clean_headers record raw) ys.
Proof.
  revert ys. induction lines as [|line lines IH]; simpl; intros ys.
  - intros [= <-]. constructor.
  - destruct (iter_line cutoff_year clean_headers check_contam line) as [o|] eqn:Hy;
      simpl; [|discriminate].
    destruct (iter_lines cutoff_year clean_headers check_contam lines) as [ys'|] eqn:Hys;
      simpl; [|discriminate].
    intros [= <-]. apply Forall_app. split.
    + destruct o as [y|]; simpl; constructor; [|constructor].
      apply iter_line_yields in Hy as (record & raw & -> & H).
      exists record, raw. split; [left | exact H].
    + eapply Forall_impl; [exact (IH _ eq_refl)|].
      intros y (record & raw & Hin & H). exists record, raw. split; [by right | exact H].
Qed.

(** A record without a text, with an empty text or with fewer than 100
    characters is passed over at once: its headers are not cleaned and the
    contamination check is not run. *)
Lemma short_record_skipped (cutoff_year : Z) (clean_headers check_contam : bool)
    (record : json_record) :
  len (default "" (record_text record)) < 100 ->
  iter_line cutoff_year clean_headers check_contam (RecordLine record) = Ok None.
Proof.
  intros Hshort. simpl.
  assert (H : (len (default "" (record_text record)) <? 100) = true) by lia.
  rewrite H. by rewrite orb_true_r.
Qed.

(** C10. Every text that [iter_jsonl_texts] yields comes from a record whose
    raw text field is present, is not empty and has at least 100 characters;
    the other records are passed over before headers are cleaned and before
    the contamination check. *)
Theorem iter_jsonl_texts_long_records (input_files : list input_file) (cutoff_year : Z)
    (clean_headers check_contam : bool) (ys : list string) :
  iter_jsonl_texts input_files cutoff_year clean_headers check_contam = Ok ys ->
  Forall (from_long_record input_files clean_headers) ys.
Proof.
  revert ys. induction input_files as [|[lines|] files IH]; simpl; intros ys.
  - intros [= <-]. constructor.
  - destruct (iter_lines cutoff_year clean_headers check_contam lines) as [ys'|] eqn:Hys;
      simpl; [|discriminate].
    destruct (iter_jsonl_texts files cutoff_year clean_headers check_contam) as [zs|] eqn:Hzs;
      simpl; [|discriminate].
    intros [= <-]. apply Forall_app. split.
    + eapply Forall_impl; [exact (iter_lines_yield _ _ _ _ _ Hys)|].
      intros y (record & raw & Hin & H). exists lines, record, raw.
      split; [left | by split].
    + eapply Forall_impl; [exact (IH _ eq_refl)|].
      intros y (lines' & record & raw & Hin & H). exists lines', record, raw.
      split; [by right | exact H].
  - intros H. eapply Forall_impl; [exact (IH _ H)|].
    intros y (lines' & record & raw & Hin & H'). exists lines', record, raw.
    split; [by right | exact H'].
Qed.

Lemma iter_jsonl_texts_long_records_witness :
  let input_files := [None; Some [short_doc; BlankLine; doc "a"; MalformedLine]] in
  iter_jsonl_texts input_files 1913 true true = Ok [replicate_char 100 "a"] /\
  Forall (from_long_record input_files true) [replicate_char 100 "a"].
Proof.
  split; [vm_compute; reflexivity|].
  apply (iter_jsonl_texts_long_records _ 1913 true true). vm_compute; reflexivity.
Defined.

(** ** Packing *)

(** The running character count follows the buffer. *)
Lemma total_len_app (docs : list string) (text : string) :
  total_len (docs ++ [text]) = total_len docs + len text.
Proof.
  unfold total_len. induction docs as [|d docs IH]; simpl; [lia|].
  rewrite IH. lia.
Qed.

(** The loop raises on a zero row group size only. *)
Lemma accumulate_ok (chars_per_shard row_group_size : Z) (max_shards : option Z)
    (texts : list string) (p : packer) :
  row_group_size <> 0 ->
  exists p', accumulate chars_per_shard row_group_size max_shards texts p = Ok p'.
Proof.
  intros Hrgs. revert p. induction texts as [|text texts IH]; intros p; simpl.
  - by eexists.
  - destruct (cap_reached max_shards (next_index p)); [by eexists|].
    unfold py_mod. destruct (row_group_size =? 0) eqn:E; [lia|]. simpl.
    destruct (_ && _); apply IH.
Qed.

(** What the loop keeps: the shards written so far are sealed shards, and
    the running count is the characters of the buffer. *)
Lemma accumulate_sealed (chars_per_shard row_group_size : Z) (max_shards : option Z)
    (texts : list string) (p p' : packer) :
  accumulate chars_per_shard row_group_size max_shards texts p = Ok p' ->
  Forall (sealed_ok chars_per_shard row_group_size) (written p) ->
  buffer_chars p = total_len (buffer_docs p) ->
  Forall (sealed_ok chars_per_shard row_group_size) (written p') /\
  buffer_chars p' = total_len (buffer_docs p').
Proof.
  revert p. induction texts as [|text texts IH]; intros p; simpl.
  - intros [= <-]. auto.
  - destruct (cap_reached max_shards (next_index p)); [intros [= <-]; auto|].
    unfold py_mod. destruct (row_group_size =? 0) eqn:E; [discriminate|]. simpl.
    destruct (_ && _) eqn:Hseal; intros Hacc Hw Hb.
    + apply andb_true_iff in Hseal as [Henough Haligned].
      apply (IH _ Hacc); simpl; [|reflexivity].
      apply Forall_app. split; [exact Hw|].
      constructor; [|constructor].
      repeat split; simpl.
      * rewrite total_len_app. lia.
      * lia.
      * apply Z.mod_divide; lia.
    + apply (IH _ Hacc); simpl; [exact Hw|].
      rewrite total_len_app. lia.
Qed.

(** With a positive cap, the loop writes one file per index and stops at
    the cap. *)
Lemma accumulate_capped (chars_per_shard row_group_size m : Z)
    (texts : list string) (p p' : packer) :
  0 < m ->
  accumulate chars_per_shard row_group_size (Some m) texts p = Ok p' ->
  Z.of_nat (length (written p)) = next_index p -> next_index p <= m ->
  Z.of_nat (length (written p')) = next_index p' /\ next_index p' <= m.
Proof.
  intros Hm. revert p. induction texts as [|text texts IH]; intros p; simpl.
  - intros [= <-]. auto.
  - assert (Hnz : (m =? 0) = false) by lia. rewrite Hnz; simpl.
    destruct (next_index p >=? m) eqn:Hcap; [intros [= <-]; auto|].
    unfold py_mod. destruct (row_group_size =? 0); [discriminate|]. simpl.
    destruct (_ && _); intros Hacc Hw Hle.
    + apply (IH _ Hacc); simpl; [|lia].
      rewrite length_app; simpl. lia.
    + apply (IH _ Hacc); simpl; [exact Hw | exact Hle].
Qed.

Section PackagerFacts.
Context `{R : Random}.

(** [package_shards] raises on a zero row group size only. *)
Lemma package_shards_ok (g : generator) (input_files : list input_file)
    (cutoff_year chars_per_shard row_group_size shuffle_seed : Z) (max_shards : option Z) :
  row_group_size <> 0 ->
  exists o, package_shards g input_files cutoff_year chars_per_shard row_group_size
              shuffle_seed max_shards = Ok o.
Proof.
  intros Hrgs. unfold package_shards.
  destruct (iter_jsonl_texts_ok input_files cutoff_year true true) as [ys Hys].
  rewrite Hys; simpl. destruct ys as [|y ys]; [by eexists|].
  destruct (random_shuffle _ _) as [texts g'].
  destruct (accumulate_ok chars_per_shard row_group_size max_shards texts
              {| buffer_docs := []; buffer_chars := 0; next_index := 0;
                 run_stats := initial_stats; written := [] |} Hrgs) as [p Hp].
  rewrite Hp; simpl. by eexists.
Qed.

(** With a positive cap, no more files are written than the cap allows. *)
Lemma package_shards_capped (g : generator) (input_files : list input_file)
    (cutoff_year chars_per_shard row_group_size shuffle_seed m : Z) (o : outcome) :
  0 < m ->
  package_shards g input_files cutoff_year chars_per_shard row_group_size
    shuffle_seed (Some m) = Ok o ->
  Z.of_nat (length (shards o)) <= m.
Proof.
  intros Hm. unfold package_shards.
  destruct (iter_jsonl_texts _ _ _ _) as [ys|]; simpl; [|discriminate].
  destruct ys as [|y ys]; [intros [= <-]; simpl; lia|].
  destruct (random_shuffle _ _) as [texts g'].
  destruct (accumulate _ _ _ _ _) as [p|] eqn:Hp; simpl; [|discriminate].
  intros [= <-]; simpl.
  apply accumulate_capped in Hp as [Hw Hle]; simpl; try lia.
  unfold flush, flush_allowed.
  destruct (negb _); simpl; [|lia].
  destruct (next_index p <? m) eqn:Hlt; simpl; [|lia].
  rewrite length_app; simpl. lia.
Qed.

(** C4. In every run of [package_shards] that returns, the files written
    are shards sealed inside the loop, followed by at most one final shard;
    every sealed shard has at least [chars_per_shard] characters and a
    number of documents that is a multiple of [row_group_size]. *)
Theorem shard_size_invariant (g : generator) (input_files : list input_file)
    (cutoff_year chars_per_shard row_group_size shuffle_seed : Z)
    (max_shards : option Z) (o : outcome) :
  package_shards g input_files cutoff_year chars_per_shard row_group_size
    shuffle_seed max_shards = Ok o ->
  exists sealed last,
    shards o = sealed ++ last /\
    Forall (sealed_ok chars_per_shard row_group_size) sealed /\
    (length last <= 1)%nat /\
    Forall (fun sh => shard_final sh = true) last.
Proof.
  unfold package_shards.
  destruct (iter_jsonl_texts _ _ _ _) as [ys|]; simpl; [|discriminate].
  destruct ys as [|y ys].
  { intros [= <-]. exists [], []. simpl. repeat split; auto. }
  destruct (random_shuffle _ _) as [texts g'].
  destruct (accumulate _ _ _ _ _) as [p|] eqn:Hp; simpl; [|discriminate].
  intros [= <-]; simpl.
  apply accumulate_sealed in Hp as [Hw _]; simpl; [|constructor|reflexivity].
  unfold flush. destruct (flush_allowed max_shards p); simpl.
  - eexists (written p), [_]. repeat split; auto.
  - exists (written p), []. rewrite app_nil_r. repeat split; auto.
Qed.
End PackagerFacts.

Lemma shard_size_invariant_witness :
  exists o,
    package_shards (R := lcg) 0 five_docs 1913 150 2 default_shuffle_seed None = Ok o /\
    length (shards o) = 3%nat /\
    exists sealed last,
      shards o = sealed ++ last /\
      Forall (sealed_ok 150 2) sealed /\
      (length last <= 1)%nat /\
      Forall (fun sh => shard_final sh = true) last.
Proof.
  eexists. split; [vm_compute; reflexivity|].
  split; [reflexivity|].
  apply (shard_size_invariant (R := lcg) 0 five_docs 1913 150 2 default_shuffle_seed None).
  vm_compute; reflexivity.
Defined.

(** ** The shuffle *)

Section ShuffleFacts.
Context `{R : Random}.

(** On two documents the shuffle keeps the order or swaps it. *)
Lemma random_shuffle_pair {A : Type} (a b : A) (g : generator) :
  (random_shuffle [a; b] g).1 = [a; b] \/ (random_shuffle [a; b] g).1 = [b; a].
Proof.
  unfold random_shuffle; simpl.
  pose proof (randbelow_lt g 2) as Hlt.
  destruct (randbelow g 2) as [j g']; simpl in *.
  destruct j as [|[|j]]; [right; reflexivity | left; reflexivity | lia].
Qed.

(** C5, amended. Two runs of [package_shards] with the same seed and the
    same parameters, on inputs that yield the same documents in the same
    order, return the same statistics and write the same documents to the
    same shards in the same order, whatever state the generator was in
    before each run. *)
Theorem package_shards_reproducible (g1 g2 : generator)
    (input_files1 input_files2 : list input_file)
    (cutoff_year chars_per_shard row_group_size shuffle_seed : Z)
    (max_shards : option Z) :
  iter_jsonl_texts input_files1 cutoff_year true true
  = iter_jsonl_texts input_files2 cutoff_year true true ->
  package_shards g1 input_files1 cutoff_year chars_per_shard row_group_size
    shuffle_seed max_shards
  = package_shards g2 input_files2 cutoff_year chars_per_shard row_group_size
      shuffle_seed max_shards.
Proof.
  intros Hsame. unfold package_shards. rewrite Hsame. reflexivity.
Qed.

(** On two different documents the shuffle tells the two orders apart. *)
Lemma random_shuffle_pair_order (x y : string) (g : generator) :
  x <> y -> (random_shuffle [x; y] g).1 <> (random_shuffle [y; x] g).1.
Proof.
  intros Hxy. unfold random_shuffle; simpl.
  destruct (randbelow g 2) as [j g']; simpl.
  destruct j as [|[|j]]; unfold swap; simpl; congruence.
Qed.

(** Without a cap every document is written, in the order of the shuffle. *)
Lemma accumulate_all_written (chars_per_shard row_group_size : Z)
    (texts : list string) (p p' : packer) :
  accumulate chars_per_shard row_group_size None texts p = Ok p' ->
  concat (shard_docs <$> written p') ++ buffer_docs p'
  = concat (shard_docs <$> written p) ++ buffer_docs p ++ texts.
Proof.
  revert p. induction texts as [|text texts IH]; intros p; simpl.
  - intros [= <-]. by rewrite app_nil_r.
  - unfold py_mod. destruct (row_group_size =? 0); [discriminate|]. simpl.
    destruct (_ && _); intros Hacc; rewrite (IH _ Hacc); simpl.
    + rewrite fmap_app, concat_app; simpl.
      rewrite app_nil_r, <- !app_assoc. reflexivity.
    + rewrite <- !app_assoc. reflexivity.
Qed.

(** The flush writes what the buffer still holds. *)
Lemma flush_all_written (row_group_size : Z) (p : packer) :
  concat (shard_docs <$> written (flush row_group_size None p))
  = concat (shard_docs <$> written p) ++ buffer_docs p.
Proof.
  unfold flush, flush_allowed. destruct (buffer_docs p) as [|d docs] eqn:E.
  - rewrite bool_decide_eq_true_2 by done. simpl. by rewrite app_nil_r.
  - rewrite bool_decide_eq_false_2 by done. simpl.
    rewrite fmap_app, concat_app; simpl. by rewrite app_nil_r.
Qed.

(** Without a cap the shards, read in order, are the shuffled documents. *)
Lemma package_shards_all_written (g : generator) (input_files : list input_file)
    (cutoff_year chars_per_shard row_group_size shuffle_seed : Z)
    (y : string) (ys : list string) (o : outcome) :
  iter_jsonl_texts input_files cutoff_year true true = Ok (y :: ys) ->
  package_shards g input_files cutoff_year chars_per_shard row_group_size
    shuffle_seed None = Ok o ->
  concat (shard_docs <$> shards o)
  = (random_shuffle (y :: ys) (random_seed shuffle_seed g)).1.
Proof.
  intros Hys. unfold package_shards. rewrite Hys. cbn [mbind result_bind].
  destruct (random_shuffle _ _) as [texts g'].
  destruct (accumulate _ _ _ _ _) as [p|] eqn:Hp; simpl; [|discriminate].
  intros [= <-]; simpl.
  rewrite flush_all_written. apply accumulate_all_written in Hp. exact Hp.
Qed.

(** Two texts of the same length made of different characters differ. *)
Lemma replicate_char_inj (n : nat) (a b : ascii) :
  replicate_char (S n) a = replicate_char (S n) b -> a = b.
Proof. simpl. by intros [= ->]. Qed.

(** The same two documents in the other order are packed in the other
    order, whatever the generator is. *)
Lemma package_shards_order_sensitive (g : generator) (shuffle_seed : Z) :
  package_shards g docs_ab 1913 default_chars_per_shard default_row_group_size
    shuffle_seed None
  <> package_shards g docs_ba 1913 default_chars_per_shard default_row_group_size
       shuffle_seed None.
Proof.
  assert (Eab : iter_jsonl_texts docs_ab 1913 true true
                = Ok [replicate_char 100 "a"; replicate_char 100 "b"])
    by (vm_compute; reflexivity).
  assert (Eba : iter_jsonl_texts docs_ba 1913 true true
                = Ok [replicate_char 100 "b"; replicate_char 100 "a"])
    by (vm_compute; reflexivity).
  destruct (package_shards_ok g docs_ab 1913 default_chars_per_shard
              default_row_group_size shuffle_seed None) as [o1 H1]; [done|].
  destruct (package_shards_ok g docs_ba 1913 default_chars_per_shard
              default_row_group_size shuffle_seed None) as [o2 H2]; [done|].
  rewrite H1, H2. intros [= ->].
  pose proof (package_shards_all_written _ _ _ _ _ _ _ _ _ Eab H1) as W1.
  pose proof (package_shards_all_written _ _ _ _ _ _ _ _ _ Eba H2) as W2.
  rewrite W1 in W2.
  revert W2. apply random_shuffle_pair_order.
  intros E. apply replicate_char_inj in E. discriminate E.
Qed.
End ShuffleFacts.

Lemma package_shards_reproducible_witness :
  iter_jsonl_texts docs_ab 1913 true true = iter_jsonl_texts docs_ab_split 1913 true true /\
  package_shards (R := lcg) 0 docs_ab 1913 150 2 default_shuffle_seed None
  = package_shards (R := lcg) 2024 docs_ab_split 1913 150 2 default_shuffle_seed None.
Proof.
  split; [vm_compute; reflexivity|].
  apply (package_shards_reproducible (R := lcg) 0 2024 docs_ab docs_ab_split).
  vm_compute; reflexivity.
Defined.

(** C5, as stated, fails: the two inputs hold the same multiset of
    documents, and with the same seed the two runs write them in different
    orders. *)
Lemma same_multiset_other_order :
  (exists l1 l2,
     iter_jsonl_texts docs_ab 1913 true true = Ok l1 /\
     iter_jsonl_texts docs_ba 1913 true true = Ok l2 /\ l1 ≡ₚ l2) /\
  package_shards (R := lcg) 0 docs_ab 1913 default_chars_per_shard default_row_group_size
    default_shuffle_seed None
  <> package_shards (R := lcg) 0 docs_ba 1913 default_chars_per_shard default_row_group_size
       default_shuffle_seed None.
Proof.
  split.
  - eexists _, _. split; [vm_compute; reflexivity|].
    split; [vm_compute; reflexivity|]. apply Permutation_swap.
  - apply (package_shards_order_sensitive (R := lcg)).
Qed.

(** ** The statistics and the cap *)

(** The loop does not touch the counter of rejected documents. *)
Lemma accumulate_rejected (chars_per_shard row_group_size : Z) (max_shards : option Z)
    (texts : list string) (p p' : packer) :
  accumulate chars_per_shard row_group_size max_shards texts p = Ok p' ->
  rejected_contamination (run_stats p') = rejected_contamination (run_stats p).
Proof.
  revert p. induction texts as [|text texts IH]; intros p; simpl.
  - by intros [= <-].
  - destruct (cap_reached max_shards (next_index p)); [by intros [= <-]|].
    unfold py_mod. destruct (row_group_size =? 0); [discriminate|]. simpl.
    destruct (_ && _); intros Hacc; by rewrite (IH _ Hacc).
Qed.

Section StatisticsFacts.
Context `{R : Random}.

(** No run changes the counter of rejected documents: it is 0 in the dict
    that is returned and in the file that is written. *)
Lemma rejected_contamination_zero (g : generator) (input_files : list input_file)
    (cutoff_year chars_per_shard row_group_size shuffle_seed : Z)
    (max_shards : option Z) (o : outcome) :
  package_shards g input_files cutoff_year chars_per_shard row_group_size
    shuffle_seed max_shards = Ok o ->
  rejected_contamination (returned o) = 0 /\
  forall st, stats_file o = Some st -> rejected_contamination st = 0.
Proof.
  unfold package_shards.
  destruct (iter_jsonl_texts _ _ _ _) as [ys|]; simpl; [|discriminate].
  destruct ys as [|y ys]; [intros [= <-]; simpl; split; [done | discriminate]|].
  destruct (random_shuffle _ _) as [texts g'].
  destruct (accumulate _ _ _ _ _) as [p|] eqn:Hp; simpl; [|discriminate].
  intros [= <-]; simpl.
  apply accumulate_rejected in Hp; simpl in Hp.
  assert (H0 : rejected_contamination (run_stats (flush row_group_size max_shards p)) = 0).
  { unfold flush. by destruct (flush_allowed max_shards p). }
  split; [exact H0 | by intros st [= <-]].
Qed.

(** C2. On an input of two records, one of them flagged by the
    contamination check and passed over, the run packs the other one and
    its statistics, returned and written to the file, count 0 rejected
    documents where the claim counts 1. *)
Theorem rejected_contamination_not_counted (g : generator) (shuffle_seed : Z) :
  exists o,
    package_shards g kept_and_flagged 1913 default_chars_per_shard
      default_row_group_size shuffle_seed None = Ok o /\
    count_flagged kept_and_flagged 1913 = 1 /\
    total_docs (returned o) = 1 /\
    rejected_contamination (returned o) = 0 /\
    stats_file o = Some (returned o).
Proof.
  eexists. split; [vm_compute; reflexivity|].
  split; [vm_compute; reflexivity|].
  repeat split.
Qed.

(** C9. With [max_shards = 0] the test of the loop takes the cap for an
    absent one: on two documents, with one character and one document per
    shard, two shards are written where the claim allows none. *)
Theorem max_shards_zero_not_a_cap (g : generator) (shuffle_seed : Z) :
  exists o,
    package_shards g docs_ab 1913 1 1 shuffle_seed (Some 0) = Ok o /\
    length (shards o) = 2%nat /\
    num_shards (returned o) = 2.
Proof.
  assert (Eab : iter_jsonl_texts docs_ab 1913 true true
                = Ok [replicate_char 100 "a"; replicate_char 100 "b"])
    by (vm_compute; reflexivity).
  unfold package_shards. rewrite Eab. cbn [mbind result_bind].
  pose proof (random_shuffle_pair (replicate_char 100 "a") (replicate_char 100 "b")
                (random_seed shuffle_seed g)) as Hpair.
  destruct (random_shuffle _ _) as [texts g']. cbn [fst] in Hpair.
  destruct Hpair as [-> | ->]; eexists;
    (split; [vm_compute; reflexivity | split; reflexivity]).
Qed.
End StatisticsFacts.

(** * Further properties *)

(** ** More on the lexicon *)

(** Two loops that agree on every element of the list agree. *)
Lemma foldl_agree {A B : Type} (f g : A -> B -> A) (l : list B) (a : A) :
  Forall (fun b => forall a, f a b = g a b) l -> foldl f a l = foldl g a l.
Proof.
  intros H. revert a. induction H as [|b l Hb _ IH]; intros a; simpl; [done|].
  by rewrite Hb, IH.
Qed.

(** The threshold years of the four dicts are 1850, 1900 and 1913. *)
Lemma categories_years :
  Forall (fun category : gmap Z (gset string) =>
            Forall (fun item : Z * gset string => item.1 ∈ lexicon_years)
                   (map_to_list category)) categories.
Proof. apply (bool_decide_unpack _). vm_compute. exact I. Qed.

(** Two cutoffs that the thresholds do not tell apart select the same
    entries of a dict. *)
Lemma add_category_agree (c c' : Z) (terms : gset string) (category : gmap Z (gset string)) :
  (forall y, y ∈ lexicon_years -> (y >=? c) = (y >=? c')) ->
  Forall (fun item : Z * gset string => item.1 ∈ lexicon_years) (map_to_list category) ->
  add_category c terms category = add_category c' terms category.
Proof.
  intros Hc Hyears. unfold add_category. apply foldl_agree.
  eapply Forall_impl; [exact Hyears|].
  intros [year year_terms] Hin a; simpl in *. by rewrite (Hc year Hin).
Qed.

Lemma get_all_anachronisms_agree (c c' : Z) :
  (forall y, y ∈ lexicon_years -> (y >=? c) = (y >=? c')) ->
  get_all_anachronisms c = get_all_anachronisms c'.
Proof.
  intros Hc. unfold get_all_anachronisms. apply foldl_agree.
  eapply Forall_impl; [exact categories_years|].
  intros category Hyears a; simpl. by apply add_category_agree.
Qed.

Lemma lexicon_years_cases (P : Z -> Prop) :
  P 1850 -> P 1900 -> P 1913 -> forall y, y ∈ lexicon_years -> P y.
Proof.
  intros H1 H2 H3 y Hy. unfold lexicon_years in Hy.
  repeat (apply elem_of_cons in Hy as [-> | Hy]; [assumption|]).
  by apply elem_of_nil in Hy.
Qed.

(** X1. Beyond the last threshold the lexicon is empty: for a cutoff year
    after 1913 no term is anachronistic, and the verdict of
    [check_contamination] has no matched term. *)
Theorem no_anachronisms_after_1913 (cutoff_year : Z) :
  1913 < cutoff_year ->
  get_all_anachronisms cutoff_year = ∅ /\
  forall text context_window threshold,
    exists v,
      check_contamination text cutoff_year context_window threshold = Ok v /\
      matched_terms v = [].
Proof.
  intros Hc.
  assert (E : get_all_anachronisms cutoff_year = ∅).
  { rewrite (get_all_anachronisms_agree cutoff_year 1914).
    - by vm_compute.
    - apply lexicon_years_cases; lia. }
  split; [exact E|].
  intros text context_window threshold. eexists.
  split; [apply check_contamination_ok|].
  unfold terms_tally. rewrite E, elements_empty. simpl foldl.
  unfold verdict_of, markers_tally; simpl matched_terms.
  destruct (contains _ _).
  - unfold intro_markers; simpl foldl.
    repeat match goal with
           | |- context [note_marker ?tl ?t ?m] =>
               unfold note_marker at 1; destruct (contains m _); simpl tally_matched
           end;
      apply (note_refs _ empty_tally).
  - apply (note_refs _ empty_tally).
Qed.

Lemma no_anachronisms_after_1913_witness :
  1913 < 1950 /\ get_all_anachronisms 1950 = ∅.
Proof. split; [lia | apply (no_anachronisms_after_1913 1950); lia]. Defined.

(** X2. The lexicon changes at the thresholds only: a cutoff year up to
    1850 has the terms of 1850, one after 1850 and up to 1900 the terms of
    1900, one after 1900 and up to 1913 the terms of 1913. *)
Theorem get_all_anachronisms_steps (cutoff_year : Z) :
  (cutoff_year <= 1850 -> get_all_anachronisms cutoff_year = get_all_anachronisms 1850) /\
  (1850 < cutoff_year <= 1900 ->
   get_all_anachronisms cutoff_year = get_all_anachronisms 1900) /\
  (1900 < cutoff_year <= 1913 ->
   get_all_anachronisms cutoff_year = get_all_anachronisms 1913).
Proof.
  repeat split; intros Hc; apply get_all_anachronisms_agree;
    apply lexicon_years_cases; lia.
Qed.

Lemma get_all_anachronisms_steps_witness :
  get_all_anachronisms 1776 = get_all_anachronisms 1850 /\
  get_all_anachronisms 1899 = get_all_anachronisms 1900 /\
  get_all_anachronisms 1901 = get_all_anachronisms 1913.
Proof.
  destruct (get_all_anachronisms_steps 1776) as (H1 & _ & _).
  destruct (get_all_anachronisms_steps 1899) as (_ & H2 & _).
  destruct (get_all_anachronisms_steps 1901) as (_ & _ & H3).
  split; [exact (H1 ltac:(lia))|].
  split; [exact (H2 ltac:(lia)) | exact (H3 ltac:(lia))].
Defined.

Lemma lower_char_idempotent (c : ascii) : lower_char (lower_char c) = lower_char c.
Proof. destruct c as [[] [] [] [] [] [] [] []]; reflexivity. Qed.

Lemma lower_idempotent (s : string) : lower (lower s) = lower s.
Proof.
  unfold lower. induction s as [|c s IH]; simpl; [done|].
  by rewrite lower_char_idempotent, IH.
Qed.

Lemma lower_nonempty (s : string) : lower s = "" -> s = "".
Proof. by destruct s. Qed.

(** X3. Every term of the lexicon is in lower case and is not empty: it
    can be found in the lower-cased text, and the placeholders of the
    conditional entries are left out. *)
Theorem get_all_anachronisms_lower (cutoff_year : Z) (term : string) :
  term ∈ get_all_anachronisms cutoff_year -> lower term = term /\ term <> "".
Proof.
  revert term. unfold get_all_anachronisms.
  apply (foldl_keeps _ (fun terms : gset string =>
           forall term, term ∈ terms -> lower term = term /\ term <> ""));
    [|intros term H; by apply not_elem_of_empty in H].
  intros terms category Hterms. unfold add_category.
  apply (foldl_keeps _ (fun terms : gset string =>
           forall term, term ∈ terms -> lower term = term /\ term <> "")); [|done].
  intros terms' [year year_terms] Hterms'; simpl.
  destruct (year >=? cutoff_year); [|done].
  apply (foldl_keeps _ (fun terms : gset string =>
           forall term, term ∈ terms -> lower term = term /\ term <> "")); [|done].
  intros terms'' raw H term. destruct raw as [|c raw]; simpl; [apply H|].
  rewrite elem_of_union, elem_of_singleton. intros [Hin | ->]; [by apply H|].
  split; [apply lower_idempotent | discriminate].
Qed.

Lemma get_all_anachronisms_lower_witness :
  "airplane" ∈ get_all_anachronisms 1900 /\ lower "airplane" = "airplane" /\ "airplane" <> "".
Proof.
  split; [by vm_compute|].
  exact (get_all_anachronisms_lower 1900 "airplane" ltac:(by vm_compute)).
Defined.

(** ** More on the verdict *)

(** The loop over the terms: the terms that occur in the text, in the order
    of the loop, and one reason for each. *)
Lemma note_terms (text_lower : string) (context_window : Z) (l : list string) (t : tally) :
  let hits := filter (fun term => contains term text_lower = true) l in
  tally_matched (foldl (note_term text_lower context_window) t l)
  = tally_matched t ++ hits /\
  tally_reasons (foldl (note_term text_lower context_window) t l)
  = tally_reasons t ++ (term_reason <$> hits).
Proof.
  revert t. induction l as [|term l IH]; intros t; simpl.
  - by rewrite !app_nil_r.
  - destruct (IH (note_term text_lower context_window t term)) as [Hm Hr].
    rewrite Hm, Hr. rewrite filter_cons. unfold note_term.
    destruct (contains term text_lower) eqn:E.
    + rewrite decide_True by done. simpl. by rewrite <- !app_assoc.
    + rewrite decide_False by congruence. done.
Qed.

(** The annotation scan appends reasons and matches no term. *)
Lemma markers_tally_keeps (text : string) (t : tally) :
  tally_matched (markers_tally text t) = tally_matched t /\
  exists more, tally_reasons (markers_tally text t) = tally_reasons t ++ more.
Proof.
  unfold markers_tally. destruct (contains _ _); [|split; [done | exists []; by rewrite app_nil_r]].
  generalize intro_markers. intros l. revert t.
  induction l as [|marker l IH]; intros t; simpl.
  - split; [done | exists []; by rewrite app_nil_r].
  - destruct (IH (note_marker (lower text) t marker)) as [Hm [more Hr]].
    rewrite Hm, Hr. unfold note_marker. destruct (contains marker _); simpl.
    + split; [done|]. eexists. by rewrite <- app_assoc.
    + split; [done|]. by eexists.
Qed.

(** X4. The matched terms of a verdict are the terms of the lexicon for the
    cutoff year that occur in the lower-cased text, each of them once
    however often it occurs, and the reasons of the verdict begin with one
    reason for each of them. *)
Theorem matched_terms_exact (text : string) (cutoff_year context_window : Z)
    (threshold : float) :
  exists v more,
    check_contamination text cutoff_year context_window threshold = Ok v /\
    NoDup (matched_terms v) /\
    (forall term, term ∈ matched_terms v <->
       term ∈ get_all_anachronisms cutoff_year /\ contains term (lower text) = true) /\
    reasons v = (term_reason <$> matched_terms v) ++ more.
Proof.
  pose proof (note_terms (lower text) context_window
                (elements (get_all_anachronisms cutoff_year)) empty_tally) as [Hm Hr].
  simpl in Hm, Hr. fold (terms_tally text cutoff_year context_window) in Hm, Hr.
  set (refs := (year_reason <$> late_years text cutoff_year) ++ pattern_reasons text).
  destruct (note_refs refs (terms_tally text cutoff_year context_window)) as (Hr1 & Hm1 & _).
  destruct (markers_tally_keeps text
              (foldl note_ref (terms_tally text cutoff_year context_window) refs))
    as [Hm2 [more Hr2]].
  eexists. exists (refs ++ more).
  split; [apply check_contamination_ok|].
  unfold verdict_of; simpl. fold refs.
  rewrite Hm2, Hm1, Hm, Hr2, Hr1, Hr, <- app_assoc.
  split; [apply NoDup_filter, NoDup_elements|].
  split; [|done].
  intros term. rewrite list_elem_of_filter, elem_of_elements. tauto.
Qed.

(** A step that leaves the tally alone or appends a reason keeps a tally
    without reasons at confidence 0. *)
Lemma quiet_tally_terms (text_lower : string) (context_window : Z) (l : list string) (t : tally) :
  (tally_reasons t = [] -> tally_confidence t = 0%float) ->
  tally_reasons (foldl (note_term text_lower context_window) t l) = [] ->
  tally_confidence (foldl (note_term text_lower context_window) t l) = 0%float.
Proof.
  intros Ht. apply (foldl_keeps _ (fun t => tally_reasons t = [] -> tally_confidence t = 0%float));
    [|exact Ht].
  intros a term Ha. unfold note_term. destruct (contains term text_lower); [|exact Ha].
  simpl. intros E. by apply app_nil in E as [_ E].
Qed.

Lemma quiet_tally_refs (refs : list string) (t : tally) :
  (tally_reasons t = [] -> tally_confidence t = 0%float) ->
  tally_reasons (foldl note_ref t refs) = [] ->
  tally_confidence (foldl note_ref t refs) = 0%float.
Proof.
  intros Ht. apply (foldl_keeps _ (fun t => tally_reasons t = [] -> tally_confidence t = 0%float));
    [|exact Ht].
  intros a ref Ha. unfold note_ref. simpl. intros E. by apply app_nil in E as [_ E].
Qed.

Lemma quiet_tally_markers (text : string) (t : tally) :
  (tally_reasons t = [] -> tally_confidence t = 0%float) ->
  tally_reasons (markers_tally text t) = [] ->
  tally_confidence (markers_tally text t) = 0%float.
Proof.
  intros Ht. unfold markers_tally. destruct (contains _ _); [|exact Ht].
  apply (foldl_keeps _ (fun t => tally_reasons t = [] -> tally_confidence t = 0%float));
    [|exact Ht].
  intros a marker Ha. unfold note_marker. destruct (contains marker _); [|exact Ha].
  simpl. intros E. by apply app_nil in E as [_ E].
Qed.

(** X5. A verdict without reasons has confidence 0; so, for a threshold
    above 0, a verdict that is contaminated gives at least one reason. *)
Theorem flagged_with_reason (text : string) (cutoff_year context_window : Z)
    (threshold : float) :
  exists v,
    check_contamination text cutoff_year context_window threshold = Ok v /\
    (reasons v = [] -> confidence v = 0%float) /\
    ((0 <? threshold)%float = true -> is_contaminated v = true -> reasons v <> []).
Proof.
  eexists. split; [apply check_contamination_ok|].
  assert (Hq : forall t : tally,
             t = markers_tally text
                   (foldl note_ref (terms_tally text cutoff_year context_window)
                      ((year_reason <$> late_years text cutoff_year) ++ pattern_reasons text)) ->
             tally_reasons t = [] -> tally_confidence t = 0%float).
  { intros t ->. apply quiet_tally_markers, quiet_tally_refs.
    unfold terms_tally. by apply quiet_tally_terms. }
  unfold verdict_of; simpl. split; [by apply Hq|].
  intros Hpos Hflag Hnone. rewrite (Hq _ eq_refl Hnone) in Hflag.
  rewrite (zero_below_threshold _ Hpos) in Hflag. discriminate.
Qed.

Lemma flagged_with_reason_witness :
  exists v,
    check_contamination "Hitler invaded Poland in 1939." 1913
      default_context_window default_threshold = Ok v /\
    is_contaminated v = true /\ reasons v <> [].
Proof.
  destruct (flagged_with_reason "Hitler invaded Poland in 1939." 1913
              default_context_window default_threshold) as (v & Hv & _ & Hreason).
  exists v. split; [exact Hv|].
  assert (Hflag : is_contaminated v = true).
  { rewrite check_contamination_ok in Hv. injection Hv as <-. vm_compute. reflexivity. }
  split; [exact Hflag|]. apply Hreason; [reflexivity | exact Hflag].
Defined.

(** A float strictly below another is at most the other. *)
Lemma ltb_leb (x y : float) : (x <? y)%float = true -> (x <=? y)%float = true.
Proof.
  rewrite ltb_spec, leb_spec. unfold SFltb, SFleb.
  by destruct (SFcompare _ _) as [[]|].
Qed.

Lemma bump_at_most_one (step c : float) : (bump step c <=? 1)%float = true.
Proof.
  unfold bump, min. destruct (c + step <? 1)%float eqn:E; [by apply ltb_leb | reflexivity].
Qed.

(** X6. The confidence of a verdict never exceeds 1.0. *)
Theorem confidence_at_most_one (text : string) (cutoff_year context_window : Z)
    (threshold : float) :
  exists v,
    check_contamination text cutoff_year context_window threshold = Ok v /\
    (confidence v <=? 1)%float = true.
Proof.
  eexists. split; [apply check_contamination_ok|].
  unfold verdict_of; simpl. unfold markers_tally.
  assert (H1 : (tally_confidence (terms_tally text cutoff_year context_window) <=? 1)%float = true).
  { unfold terms_tally.
    apply (foldl_keeps _ (fun t => (tally_confidence t <=? 1)%float = true)); [|reflexivity].
    intros a term Ha. unfold note_term. destruct (contains term _); [|exact Ha].
    apply (bump_at_most_one 0.2). }
  assert (H2 : forall refs t, (tally_confidence t <=? 1)%float = true ->
                 (tally_confidence (foldl note_ref t refs) <=? 1)%float = true).
  { intros refs t Ht.
    apply (foldl_keeps _ (fun t => (tally_confidence t <=? 1)%float = true)); [|exact Ht].
    intros a ref Ha. apply (bump_at_most_one 0.3). }
  destruct (contains _ _); [|by apply H2].
  apply (foldl_keeps _ (fun t => (tally_confidence t <=? 1)%float = true)); [|by apply H2].
  intros a marker Ha. unfold note_marker. destruct (contains marker _); [|exact Ha].
  apply (bump_at_most_one 0.1).
Qed.

(** ** More on the modern references *)

(** A match of [year_pattern] begins with ["19"] or with ["20"]. *)
Lemma year_pattern_century (prev : option ascii) (s rest : string) :
  match_here year_pattern prev s = Some rest ->
  exists c d,
    (s = String "1" (String "9" (String c (String d rest))) \/
     s = String "2" (String "0" (String c (String d rest)))) /\
    is_digit c = true /\ is_digit d = true.
Proof.
  unfold match_here, year_pattern; simpl.
  destruct (xorb _ _); [|discriminate].
  destruct s as [|a [|b [|c [|d s']]]]; simpl;
    repeat match goal with
           | |- context [Ascii.eqb ?x ?y] =>
               let E := fresh "E" in
               destruct (Ascii.eqb x y) eqn:E; [apply Ascii.eqb_eq in E; subst|]
           | |- context [if is_digit ?x then _ else _] =>
               let E := fresh "E" in destruct (is_digit x) eqn:E
           | |- context [xorb ?x ?y] => destruct (xorb x y)
           end; simpl; try discriminate;
    intros [= <-]; exists c, d; auto.
Qed.

Lemma finditer_century_tokens (s : string) (skip : nat) (prev : option ascii) :
  Forall century_token (finditer_from year_pattern skip prev s).
Proof.
  revert skip prev. induction s as [|c s IH]; intros skip prev.
  - destruct skip; simpl; [|constructor].
    destruct (match_here year_pattern prev "") as [rest|] eqn:E; [|constructor].
    apply year_pattern_century in E as (?&?&[?|?]&_); discriminate.
  - destruct skip as [|skip]; cbn [finditer_from]; [|apply IH].
    destruct (match_here year_pattern prev (String c s)) as [rest|] eqn:E; [|apply IH].
    constructor; [|apply IH].
    apply year_pattern_century in E as (c'&d&Hs&Hc&Hd).
    exists c', d. split; [|done].
    destruct Hs as [-> | ->]; rewrite take_length_app; auto.
Qed.

Lemma digit_value (c : ascii) :
  is_digit c = true -> 0 <= Z.of_N (code c) - 48 <= 9.
Proof.
  unfold is_digit. intros [H1 H2]%andb_true_iff.
  apply N.leb_le in H1, H2. lia.
Qed.

(** The number of a year token lies in 1900..2099. *)
Lemma century_token_value (m : string) :
  century_token m -> 1900 <= year_value m <= 2099.
Proof.
  intros (c & d & Hm & Hc & Hd).
  pose proof (digit_value c Hc). pose proof (digit_value d Hd).
  unfold year_value, int.
  destruct Hm as [-> | ->]; cbn [int_digits]; rewrite Hc, Hd;
    change (is_digit "1") with true; change (is_digit "9") with true;
    change (is_digit "2") with true; change (is_digit "0") with true;
    cbn [int_digits];
    change (Z.of_N (code "1")) with 49; change (Z.of_N (code "9")) with 57;
    change (Z.of_N (code "2")) with 50; change (Z.of_N (code "0")) with 48; lia.
Qed.

(** X7. Every entry of the list of [check_for_modern_references] is one of
    the three fixed reasons or the reason of a year of 1900..2099 that is
    strictly above the cutoff year; for a cutoff year of 2099 or later the
    list has no year reason, hence at most three entries. *)
Theorem modern_references_range (text : string) (cutoff_year : Z) :
  exists refs,
    check_for_modern_references text cutoff_year = Ok refs /\
    Forall (fun ref => ref ∈ fixed_reasons \/
              exists year, ref = year_reason year /\
                           cutoff_year < year /\ 1900 <= year <= 2099) refs /\
    (2099 <= cutoff_year -> (length refs <= 3)%nat).
Proof.
  eexists. split; [apply check_for_modern_references_ok|].
  assert (Hyears : Forall (fun year => cutoff_year < year /\ 1900 <= year <= 2099)
                          (late_years text cutoff_year)).
  { unfold late_years, finditer. apply Forall_forall. intros year.
    rewrite list_elem_of_filter, list_elem_of_fmap. intros [Hlt (m & -> & Hm)].
    split; [exact Hlt|]. apply century_token_value.
    pose proof (finditer_century_tokens text 0 None) as H.
    rewrite Forall_forall in H. by apply H. }
  split.
  - apply Forall_app. split.
    + apply Forall_fmap. eapply Forall_impl; [exact Hyears|].
      intros year H. right. by exists year.
    + unfold pattern_reasons, fixed_reasons.
      destruct (search modern_date_pattern text), (search url_pattern (lower text)),
        (search currency_pattern text); simpl;
        repeat constructor; left; set_solver.
  - intros Hc.
    assert (E : late_years text cutoff_year = []).
    { destruct (late_years text cutoff_year) as [|year l]; [done|].
      apply Forall_cons in Hyears as [H _]. lia. }
    rewrite E. simpl. unfold pattern_reasons.
    destruct (search modern_date_pattern text), (search url_pattern (lower text)),
      (search currency_pattern text); simpl; lia.
Qed.

Lemma modern_references_range_witness :
  exists refs,
    check_for_modern_references "Call 555-2000 before 1/2/2050, see www.loc.gov" 2099
    = Ok refs /\ (length refs <= 3)%nat.
Proof.
  destruct (modern_references_range "Call 555-2000 before 1/2/2050, see www.loc.gov" 2099)
    as (refs & Hrefs & _ & Hlen).
  exists refs. split; [exact Hrefs | apply Hlen; lia].
Defined.

(** ** More on the header and footer stripper *)

Lemma string_app_assoc (a b c : string) : (a +:+ b) +:+ c = a +:+ (b +:+ c).
Proof.
  induction a as [|x a IH]; [reflexivity|].
  change (String x ((a +:+ b) +:+ c) = String x (a +:+ (b +:+ c))). by rewrite IH.
Qed.

Lemma string_app_length (a b : string) :
  String.length (a +:+ b) = (String.length a + String.length b)%nat.
Proof.
  induction a as [|x a IH]; [reflexivity|].
  change (S (String.length (a +:+ b)) = S (String.length a + String.length b)).
  by rewrite IH.
Qed.

(** A cut splits the text in two. *)
Lemma str_take_drop (n : nat) (s : string) : s = str_take n s +:+ str_drop n s.
Proof.
  revert s. induction n as [|n IH]; intros [|c s]; try reflexivity.
  change (String c s = String c (str_take n s +:+ str_drop n s)). by rewrite <- IH.
Qed.

Lemma lstrip_suffix (s : string) : exists pre, s = pre +:+ lstrip s.
Proof.
  induction s as [|c s [pre IH]]; [by exists ""|]. simpl.
  destruct (is_space c); [|by exists ""].
  exists (String c pre). change (String c s = String c (pre +:+ lstrip s)). by rewrite <- IH.
Qed.

Lemma rstrip_prefix (s : string) : exists post, s = rstrip s +:+ post.
Proof.
  induction s as [|c s [post IH]]; [by exists ""|]. simpl.
  destruct (rstrip s) as [|d r] eqn:E.
  - destruct (is_space c).
    + by exists (String c s).
    + exists s. reflexivity.
  - exists post. change (String c s = String c (String d r +:+ post)). by rewrite <- IH.
Qed.

Lemma remove_header_suffix (markers : list string) (text : string) :
  exists pre, text = pre +:+ remove_header markers text.
Proof.
  induction markers as [|marker markers IH]; simpl; [by exists ""|].
  destruct (find (upper marker) (upper text)) as [idx|]; [|exact IH].
  destruct (find_from newline text idx) as [end_idx|]; [|by exists ""].
  exists (str_take (S end_idx) text). apply str_take_drop.
Qed.

Lemma remove_footer_prefix (markers : list string) (text : string) :
  exists post, text = remove_footer markers text +:+ post.
Proof.
  induction markers as [|marker markers IH]; simpl.
  - exists "". induction text as [|c text IHt]; [reflexivity|].
    change (String c text = String c (text +:+ "")). by rewrite <- IHt.
  - destruct (find (upper marker) (upper text)) as [idx|]; [|exact IH].
    exists (str_drop idx text). apply str_take_drop.
Qed.

(** X8. The cleaned text is one contiguous piece of the text it was given:
    the stripper only removes from the two ends, and never returns more
    characters than it received. *)
Theorem clean_gutenberg_headers_piece (text : string) :
  (exists pre post, text = pre +:+ clean_gutenberg_headers text +:+ post) /\
  len (clean_gutenberg_headers text) <= len text.
Proof.
  assert (H : exists pre post, text = pre +:+ clean_gutenberg_headers text +:+ post).
  { unfold clean_gutenberg_headers, strip.
    destruct (remove_header_suffix header_end_markers text) as [pre1 H1].
    set (h := remove_header header_end_markers text) in *.
    destruct (remove_footer_prefix footer_start_markers h) as [post1 H2].
    set (f := remove_footer footer_start_markers h) in *.
    destruct (rstrip_prefix f) as [post2 H3].
    destruct (lstrip_suffix (rstrip f)) as [pre2 H4].
    exists (pre1 +:+ pre2), (post2 +:+ post1).
    rewrite H1 at 1. rewrite H2 at 1. rewrite H3 at 1. rewrite H4 at 1.
    by rewrite !string_app_assoc. }
  split; [exact H|].
  destruct H as (pre & post & H). unfold len. rewrite H at 2.
  rewrite !string_app_length. lia.
Qed.

Lemma lstrip_head (s : string) (c : ascii) (r : string) :
  lstrip s = String c r -> is_space c = false.
Proof.
  induction s as [|a s IH]; simpl; [discriminate|].
  destruct (is_space a) eqn:E; [exact IH|]. by intros [= <- _].
Qed.

Lemma last_char_lstrip (s : string) (c : ascii) :
  last_char (lstrip s) = Some c -> last_char s = Some c.
Proof.
  induction s as [|a s IH]; simpl; [done|].
  destruct (is_space a); [|done].
  intros H. specialize (IH H). destruct s; [discriminate | exact IH].
Qed.

Lemma last_char_rstrip (s : string) (c : ascii) :
  last_char (rstrip s) = Some c -> is_space c = false.
Proof.
  induction s as [|a s IH]; simpl; [discriminate|].
  destruct (rstrip s) as [|d r] eqn:E.
  - destruct (is_space a) eqn:Ea; simpl; [discriminate|]. by intros [= <-].
  - exact IH.
Qed.

(** X9. The cleaned text neither begins nor ends with a white-space
    character. *)
Theorem clean_gutenberg_headers_trimmed (text : string) (c : ascii) :
  ((exists rest, clean_gutenberg_headers text = String c rest) -> is_space c = false) /\
  (last_char (clean_gutenberg_headers text) = Some c -> is_space c = false).
Proof.
  unfold clean_gutenberg_headers, strip. split.
  - intros [rest H]. by apply lstrip_head in H.
  - intros H. by apply last_char_lstrip, last_char_rstrip in H.
Qed.

Lemma clean_gutenberg_headers_trimmed_witness :
  clean_gutenberg_headers gutenberg_wrapped = "I went to the woods." /\
  is_space "I" = false /\ is_space "." = false.
Proof.
  split; [vm_compute; reflexivity|].
  destruct (clean_gutenberg_headers_trimmed gutenberg_wrapped "I") as [Hfirst _].
  destruct (clean_gutenberg_headers_trimmed gutenberg_wrapped ".") as [_ Hlast].
  split.
  - apply Hfirst. exists " went to the woods.". vm_compute; reflexivity.
  - apply Hlast. vm_compute; reflexivity.
Defined.

(** X10. A text that holds none of the markers is returned as it is, apart
    from the white space at its two ends. *)
Theorem clean_gutenberg_headers_no_marker (text : string) :
  marker_free text = true -> clean_gutenberg_headers text = strip text.
Proof.
  unfold marker_free. rewrite forallb_app. intros [Hh Hf]%andb_true_iff.
  unfold clean_gutenberg_headers.
  by rewrite (remove_header_absent _ _ Hh), (remove_footer_absent _ _ Hf).
Qed.

Lemma clean_gutenberg_headers_no_marker_witness :
  marker_free "  Call me Ishmael.  " = true /\
  clean_gutenberg_headers "  Call me Ishmael.  " = "Call me Ishmael.".
Proof.
  split; [vm_compute; reflexivity|].
  rewrite (clean_gutenberg_headers_no_marker "  Call me Ishmael.  ");
    vm_compute; reflexivity.
Defined.

(** ** The batch check *)

Lemma check_contamination_default (text : string) (cutoff_year : Z) :
  check_contamination text cutoff_year default_context_window default_threshold
  = Ok (default_verdict cutoff_year text).
Proof. apply check_contamination_ok. Qed.

(** The loop of [batch_check_contamination] in closed form. *)
Lemma batch_rounds_closed (cutoff_year : Z) (return_clean : bool) (texts : list string)
    (clean_texts : list string) (st : batch_stats) :
  batch_rounds cutoff_year return_clean texts (clean_texts, st)
  = Ok (clean_texts ++
          (if return_clean
           then filter (fun text => flagged_text cutoff_year text = false) texts
           else []),
        {| total := total st;
           clean := clean st +
             Z.of_nat (length (filter (fun text => flagged_text cutoff_year text = false) texts));
           contaminated := contaminated st +
             Z.of_nat (length (filter (fun text => flagged_text cutoff_year text = true) texts));
           contamination_reasons :=
             foldl count_reason (contamination_reasons st)
                   (flagged_reasons cutoff_year texts) |}).
Proof.
  revert clean_texts st. induction texts as [|text texts IH]; intros clean_texts st.
  - cbn [batch_rounds]. unfold flagged_reasons. rewrite !filter_nil.
    destruct st, return_clean; cbn; rewrite app_nil_r, !Z.add_0_r; reflexivity.
  - cbn [batch_rounds]. unfold batch_round. rewrite check_contamination_default.
    cbn [mbind result_bind]. fold (flagged_text cutoff_year text).
    unfold flagged_reasons. rewrite !filter_cons.
    destruct (flagged_text cutoff_year text) eqn:E; cbn [negb mbind result_bind].
    + rewrite IH. rewrite decide_False by congruence. rewrite decide_True by done.
      cbn [total clean contaminated contamination_reasons].
      rewrite fmap_cons, concat_cons, foldl_app. cbn [length].
      do 2 f_equal. f_equal; lia.
    + rewrite IH. rewrite decide_True by done. rewrite decide_False by congruence.
      cbn [total clean contaminated contamination_reasons length].
      destruct return_clean; rewrite <- ?app_assoc; cbn [app]; do 2 f_equal; f_equal; lia.
Qed.

(** X11. [batch_check_contamination] never raises; its statistics count the
    texts it was given, the flagged ones as contaminated and the others as
    clean, so that clean and contaminated add up to the total. *)
Theorem batch_check_contamination_counts (texts : list string) (cutoff_year : Z)
    (return_clean : bool) :
  exists clean_texts st,
    batch_check_contamination texts cutoff_year return_clean = Ok (clean_texts, st) /\
    total st = Z.of_nat (length texts) /\
    contaminated st
    = Z.of_nat (length (filter (fun text => flagged_text cutoff_year text = true) texts)) /\
    clean st + contaminated st = total st.
Proof.
  unfold batch_check_contamination. rewrite batch_rounds_closed.
  eexists _, _. split; [reflexivity|]. cbn [total clean contaminated].
  split; [reflexivity|]. split; [lia|].
  assert (H : (length (filter (fun text => flagged_text cutoff_year text = false) texts)
               + length (filter (fun text => flagged_text cutoff_year text = true) texts)
               = length texts)%nat).
  { induction texts as [|text texts IH]; [done|]. rewrite !filter_cons.
    destruct (flagged_text cutoff_year text); simpl; lia. }
  lia.
Qed.

(** X12. With [return_clean] the first component is the texts that are not
    flagged, in the order they were given, as many as the [clean] counter
    says; without it the first component is empty. *)
Theorem batch_check_contamination_clean_texts (texts : list string) (cutoff_year : Z)
    (return_clean : bool) :
  exists clean_texts st,
    batch_check_contamination texts cutoff_year return_clean = Ok (clean_texts, st) /\
    (return_clean = true ->
     clean_texts = filter (fun text => flagged_text cutoff_year text = false) texts /\
     clean st = Z.of_nat (length clean_texts)) /\
    (return_clean = false -> clean_texts = []).
Proof.
  unfold batch_check_contamination. rewrite batch_rounds_closed.
  eexists _, _. split; [reflexivity|]. cbn [clean].
  split; intros ->; cbn [app]; [split; [reflexivity | lia] | reflexivity].
Qed.

Lemma batch_check_contamination_clean_texts_witness :
  exists clean_texts st,
    batch_check_contamination batch_sample 1913 true = Ok (clean_texts, st) /\
    clean_texts = filter (fun text => flagged_text 1913 text = false) batch_sample /\
    clean st = Z.of_nat (length clean_texts).
Proof.
  destruct (batch_check_contamination_clean_texts batch_sample 1913 true)
    as (clean_texts & st & Hrun & Hclean & _).
  exists clean_texts, st. split; [exact Hrun | exact (Hclean eq_refl)].
Defined.

(** The self-test texts of the module at cutoff 1913: two of the five are
    flagged, one of them for its web address. *)
Example batch_sample_run :
  match batch_check_contamination batch_sample 1913 true with
  | Ok (clean_texts, st) =>
      clean_texts = ["The king rode his horse to the castle in 1812.";
                     "The telegraph was a remarkable invention.";
                     "The airplane flew over the city."] /\
      total st = 5 /\ clean st = 3 /\ contaminated st = 2 /\
      contamination_reasons st !! "URL or email address" = Some 1 /\
      contamination_reasons st !! "Modern date format" = None
  | Raise _ => False
  end.
Proof. vm_compute. repeat split. Qed.

(** Counting the entries of a list in a dict. *)
Lemma count_reasons_lookup (l : list string) (m : gmap string Z) (reason : string) :
  foldl count_reason m l !! reason
  = match count_occ string_dec l reason with
    | O => m !! reason
    | S n => Some (default 0 (m !! reason) + Z.of_nat (S n))
    end.
Proof.
  revert m. induction l as [|r l IH]; intros m; [reflexivity|].
  cbn [foldl count_occ]. rewrite IH.
  destruct (string_dec r reason) as [-> | Hne].
  - assert (E : count_reason m reason !! reason = Some (default 0 (m !! reason) + 1))
      by apply lookup_insert_eq.
    rewrite E.
    destruct (count_occ string_dec l reason); cbn [from_option id]; f_equal; lia.
  - assert (E : count_reason m r !! reason = m !! reason)
      by (by apply lookup_insert_ne).
    rewrite E. reflexivity.
Qed.

(** X13. The dict [contamination_reasons] maps a reason to the number of
    times it is given by the verdicts of the flagged texts, and has no
    entry for a reason they never give. *)
Theorem batch_check_contamination_reasons (texts : list string) (cutoff_year : Z)
    (return_clean : bool) (reason : string) :
  exists clean_texts st,
    batch_check_contamination texts cutoff_year return_clean = Ok (clean_texts, st) /\
    contamination_reasons st !! reason
    = match count_occ string_dec (flagged_reasons cutoff_year texts) reason with
      | O => None
      | n => Some (Z.of_nat n)
      end.
Proof.
  unfold batch_check_contamination. rewrite batch_rounds_closed.
  eexists _, _. split; [reflexivity|]. cbn [contamination_reasons].
  rewrite count_reasons_lookup, lookup_empty.
  destruct (count_occ _ _ _); [reflexivity|]. cbn [from_option id]. f_equal.
Qed.

(** ** More on reading the input *)

Lemma iter_line_closed (cutoff_year : Z) (clean_headers check_contam : bool)
    (line : jsonl_line) :
  iter_line cutoff_year clean_headers check_contam line
  = Ok (yielded cutoff_year clean_headers check_contam line).
Proof.
  destruct line as [| |record]; try reflexivity.
  unfold iter_line, yielded. destruct (_ || _); [reflexivity|].
  fold (prepared clean_headers record (default "" (record_text record))).
  destruct check_contam; [|reflexivity].
  rewrite check_contamination_default. cbn [mbind result_bind andb].
  fold (flagged_text cutoff_year (prepared clean_headers record (default "" (record_text record)))).
  by destruct (flagged_text _ _).
Qed.

Lemma iter_lines_closed (cutoff_year : Z) (clean_headers check_contam : bool)
    (lines : list jsonl_line) :
  iter_lines cutoff_year clean_headers check_contam lines
  = Ok (omap (yielded cutoff_year clean_headers check_contam) lines).
Proof.
  induction lines as [|line lines IH]; [reflexivity|].
  cbn [iter_lines]. rewrite iter_line_closed, IH. cbn [mbind result_bind omap list_omap].
  by destruct (yielded _ _ _ line).
Qed.

(** The reader in closed form: the texts of the lines that yield one, in
    the order of the files and of their lines. *)
Lemma iter_jsonl_texts_closed (input_files : list input_file) (cutoff_year : Z)
    (clean_headers check_contam : bool) :
  iter_jsonl_texts input_files cutoff_year clean_headers check_contam
  = Ok (omap (yielded cutoff_year clean_headers check_contam) (input_lines input_files)).
Proof.
  unfold input_lines.
  induction input_files as [|[lines|] files IH]; [reflexivity| |exact IH].
  cbn [iter_jsonl_texts]. rewrite iter_lines_closed, IH.
  cbn [mbind result_bind omap list_omap id concat]. by rewrite omap_app.
Qed.



(** X15. With the contamination check on, no text that is yielded is
    flagged by [check_contamination] under its defaults. *)
Theorem iter_jsonl_texts_unflagged (input_files : list input_file) (cutoff_year : Z)
    (clean_headers : bool) (ys : list string) :
  iter_jsonl_texts input_files cutoff_year clean_headers true = Ok ys ->
  Forall (fun y => exists v,
            check_contamination y cutoff_year default_context_window default_threshold
            = Ok v /\ is_contaminated v = false) ys.
Proof.
  rewrite iter_jsonl_texts_closed. intros [= <-].
  apply Forall_forall. intros y (line & _ & Hy)%list_elem_of_omap.
  exists (default_verdict cutoff_year y). split; [apply check_contamination_default|].
  destruct line as [| |record]; try discriminate.
  unfold yielded in Hy. destruct (_ || _); [discriminate|].
  cbn [andb] in Hy. destruct (flagged_text _ _) eqn:E; [discriminate|].
  injection Hy as <-. exact E.
Qed.

Lemma iter_jsonl_texts_unflagged_witness :
  iter_jsonl_texts kept_and_flagged 1913 true true = Ok [replicate_char 100 "a"] /\
  Forall (fun y => exists v,
            check_contamination y 1913 default_context_window default_threshold
            = Ok v /\ is_contaminated v = false) [replicate_char 100 "a"].
Proof.
  split; [vm_compute; reflexivity|].
  apply (iter_jsonl_texts_unflagged kept_and_flagged 1913 true). vm_compute; reflexivity.
Defined.

Lemma flagged_closed (cutoff_year : Z) (line : jsonl_line) :
  flagged cutoff_year line
  = long_enough line &&
    match line with
    | RecordLine record =>
        flagged_text cutoff_year (prepared true record (default "" (record_text record)))
    | _ => false
    end.
Proof.
  destruct line as [| |record]; try reflexivity.
  unfold flagged, long_enough. by rewrite check_contamination_default.
Qed.

(** X16. In the reading of [package_shards] every record whose text passes
    the length test is either yielded or flagged by the contamination
    check: the texts collected and the records flagged add up to the records
    that are long enough. *)
Theorem iter_jsonl_texts_accounted (input_files : list input_file) (cutoff_year : Z) :
  exists ys,
    iter_jsonl_texts input_files cutoff_year true true = Ok ys /\
    Z.of_nat (length ys) + count_flagged input_files cutoff_year
    = Z.of_nat (length (filter (fun line => long_enough line = true)
                               (input_lines input_files))).
Proof.
  eexists. split; [apply iter_jsonl_texts_closed|].
  unfold count_flagged. fold (input_lines input_files).
  assert (Hline : forall line,
            (length (option_list (yielded cutoff_year true true line))
             + (if flagged cutoff_year line then 1 else 0)
             = if long_enough line then 1 else 0)%nat).
  { intros line. rewrite flagged_closed.
    destruct line as [| |record]; try reflexivity.
    unfold yielded, long_enough. destruct (_ || _); [reflexivity|].
    cbn [negb andb]. by destruct (flagged_text _ _). }
  induction (input_lines input_files) as [|line lines IH]; [reflexivity|].
  rewrite !filter_cons. cbn [omap list_omap].
  specialize (Hline line).
  destruct (yielded cutoff_year true true line), (flagged cutoff_year line),
    (long_enough line); simpl in Hline; try lia;
    repeat first [rewrite decide_True by done | rewrite decide_False by discriminate];
    cbv beta iota; cbn [length]; lia.
Qed.

(** ** More on the shuffle *)

Lemma transpose_inj (i j : nat) : Inj (=) (=) (transpose i j).
Proof.
  intros a b. unfold transpose.
  repeat case_decide; intros; subst; congruence.
Qed.

Lemma swap_lookup {A : Type} (x : list A) (i j k : nat) :
  (i < length x)%nat -> (j < length x)%nat ->
  swap x i j !! k = x !! transpose i j k.
Proof.
  intros Hi Hj. unfold swap, transpose.
  destruct (lookup_lt_is_Some_2 x i Hi) as [a Ha].
  destruct (lookup_lt_is_Some_2 x j Hj) as [b Hb].
  rewrite Ha, Hb.
  destruct (decide (k = i)) as [-> | Hki].
  - rewrite list_lookup_insert_eq by (rewrite length_insert; lia). by rewrite Hb.
  - rewrite list_lookup_insert_ne by done.
    destruct (decide (k = j)) as [-> | Hkj].
    + rewrite list_lookup_insert_eq by lia. by rewrite Ha.
    + by rewrite list_lookup_insert_ne.
Qed.

Lemma swap_length {A : Type} (x : list A) (i j : nat) : length (swap x i j) = length x.
Proof.
  unfold swap. destruct (x !! i), (x !! j); try done. by rewrite !length_insert.
Qed.

(** An exchange of two entries rearranges the list. *)
Lemma swap_perm {A : Type} (x : list A) (i j : nat) : swap x i j ≡ₚ x.
Proof.
  destruct (decide (i < length x)%nat) as [Hi|Hi];
    [destruct (decide (j < length x)%nat) as [Hj|Hj]|].
  - apply Permutation_inj. split; [apply swap_length|].
    exists (transpose i j). split; [apply transpose_inj|].
    intros k. by apply swap_lookup.
  - unfold swap. rewrite (lookup_ge_None_2 x j) by lia. by destruct (x !! i).
  - unfold swap. by rewrite (lookup_ge_None_2 x i) by lia.
Qed.

Section ShuffleMore.
Context `{R : Random}.

Lemma shuffle_from_perm {A : Type} (i : nat) (x : list A) (g : generator) :
  (shuffle_from i x g).1 ≡ₚ x.
Proof.
  revert x g. induction i as [|i IH]; intros x g; [done|].
  cbn [shuffle_from]. destruct (randbelow g (S (S i))) as [j g'].
  rewrite IH. apply swap_perm.
Qed.

(** The shuffle rearranges its list: nothing is lost, nothing is repeated. *)
Lemma random_shuffle_perm {A : Type} (x : list A) (g : generator) :
  (random_shuffle x g).1 ≡ₚ x.
Proof. apply shuffle_from_perm. Qed.
End ShuffleMore.

(** ** More on packing *)

Lemma total_len_app2 (a b : list string) : total_len (a ++ b) = total_len a + total_len b.
Proof.
  unfold total_len. induction a as [|d a IH]; simpl; [lia|]. rewrite IH. lia.
Qed.

Lemma seq_index_snoc (n : nat) :
  Z.of_nat <$> seq 0 (S n) = (Z.of_nat <$> seq 0 n) ++ [Z.of_nat n].
Proof. by rewrite seq_S, fmap_app. Qed.

(** The loop keeps [packer_ok]. *)
Lemma accumulate_packer_ok (chars_per_shard row_group_size : Z) (max_shards : option Z)
    (texts : list string) (p p' : packer) :
  accumulate chars_per_shard row_group_size max_shards texts p = Ok p' ->
  packer_ok max_shards p -> packer_ok max_shards p'.
Proof.
  revert p. induction texts as [|text texts IH]; intros p; simpl.
  - by intros [= <-].
  - destruct (cap_reached max_shards (next_index p)) eqn:Hcap; [by intros [= <-]|].
    unfold py_mod. destruct (row_group_size =? 0); [discriminate|]. simpl.
    destruct (_ && _); intros Hacc (I1 & I2 & I3 & I4 & I5 & I6 & I7 & I8);
      apply (IH _ Hacc); unfold packer_ok; simpl.
    + rewrite !fmap_app, !concat_app, !length_app, total_len_app2; simpl.
      rewrite app_nil_r, length_app, total_len_app; simpl.
      replace (length (written p) + 1)%nat with (S (length (written p))) by lia.
      rewrite seq_index_snoc, I1, <- I2.
      repeat split; try lia; try done.
      apply Forall_app. split; [exact I7|].
      constructor; [|constructor]. simpl. split.
      * intros E. by apply app_nil in E as [_ E].
      * rewrite total_len_app. lia.
    + rewrite length_app, total_len_app; simpl.
      repeat split; try lia; try done.
      intros _ m -> Hm. unfold cap_reached in Hcap.
      assert (Hnz : (m =? 0) = false) by lia. rewrite Hnz in Hcap. simpl in Hcap. lia.
Qed.

Lemma initial_packer_ok (max_shards : option Z) : packer_ok max_shards initial_packer.
Proof. unfold packer_ok; simpl. repeat split; done. Qed.

(** After the flush: the files are numbered from 0, the shard counter is
    their number, none of them is empty; unless the cap is 0, the document
    and character counters are those of the files. *)
Lemma flush_packer_ok (row_group_size : Z) (max_shards : option Z) (p : packer) :
  packer_ok max_shards p ->
  let p' := flush row_group_size max_shards p in
  shard_index <$> written p' = Z.of_nat <$> seq 0 (length (written p')) /\
  num_shards (run_stats p') = Z.of_nat (length (written p')) /\
  Forall (fun sh => shard_docs sh <> [] /\ shard_chars sh = total_len (shard_docs sh))
         (written p') /\
  (max_shards <> Some 0 ->
   total_docs (run_stats p') = Z.of_nat (length (concat (shard_docs <$> written p'))) /\
   total_chars (run_stats p') = total_len (concat (shard_docs <$> written p'))).
Proof.
  intros (I1 & I2 & I3 & I4 & I5 & I6 & I7 & I8). unfold flush, flush_allowed.
  destruct (decide (buffer_docs p = [])) as [Hempty | Hfull].
  - rewrite bool_decide_eq_true_2 by done. simpl.
    rewrite Hempty in *. simpl in *.
    repeat split; try lia; done.
  - rewrite bool_decide_eq_false_2 by done. simpl.
    assert (Hshard : forall final rgs,
              let p' := {| buffer_docs := buffer_docs p; buffer_chars := buffer_chars p;
                           next_index := next_index p;
                           run_stats :=
                             {| total_docs := total_docs (run_stats p);
                                total_chars := total_chars (run_stats p);
                                num_shards := num_shards (run_stats p) + 1;
                                rejected_contamination :=
                                  rejected_contamination (run_stats p) |};
                           written := written p ++
                             [{| shard_index := next_index p; shard_docs := buffer_docs p;
                                 shard_chars := buffer_chars p;
                                 shard_row_group_size := rgs; shard_final := final |}] |} in
              shard_index <$> written p' = Z.of_nat <$> seq 0 (length (written p')) /\
              num_shards (run_stats p') = Z.of_nat (length (written p')) /\
              Forall (fun sh => shard_docs sh <> [] /\ shard_chars sh = total_len (shard_docs sh))
                     (written p') /\
              total_docs (run_stats p') = Z.of_nat (length (concat (shard_docs <$> written p'))) /\
              total_chars (run_stats p') = total_len (concat (shard_docs <$> written p'))).
    { intros final rgs. simpl.
      rewrite !fmap_app, !concat_app, !length_app, total_len_app2; simpl.
      rewrite app_nil_r.
      replace (length (written p) + 1)%nat with (S (length (written p))) by lia.
      rewrite seq_index_snoc, I1, <- I2.
      repeat split; try lia; try done.
      apply Forall_app. split; [exact I7|]. by repeat constructor. }
    destruct max_shards as [m|].
    + destruct (next_index p <? m) eqn:Hlt.
      * destruct (Hshard true (Z.min row_group_size (Z.of_nat (length (buffer_docs p)))))
          as (H1 & H2 & H3 & H4 & H5). repeat split; auto.
      * simpl. split; [exact I1|]. split; [lia|]. split; [exact I7|].
        intros Hm. exfalso. assert (Hnz : m <> 0) by congruence.
        specialize (I8 Hfull m eq_refl Hnz). lia.
    + destruct (Hshard true (Z.min row_group_size (Z.of_nat (length (buffer_docs p)))))
        as (H1 & H2 & H3 & H4 & H5). repeat split; auto.
Qed.

(** The loop takes the texts from the front of its list: what is written
    or buffered afterwards is what was there before and the texts used. *)
Lemma accumulate_used (chars_per_shard row_group_size : Z) (max_shards : option Z)
    (texts : list string) (p p' : packer) :
  accumulate chars_per_shard row_group_size max_shards texts p = Ok p' ->
  exists used rest,
    texts = used ++ rest /\
    (max_shards = None -> rest = []) /\
    concat (shard_docs <$> written p') ++ buffer_docs p'
    = concat (shard_docs <$> written p) ++ buffer_docs p ++ used.
Proof.
  revert p. induction texts as [|text texts IH]; intros p; simpl.
  - intros [= <-]. exists [], []. split; [done|]. split; [done|]. by rewrite !app_nil_r.
  - destruct (cap_reached max_shards (next_index p)) eqn:Hcap.
    { intros [= <-]. exists [], (text :: texts).
      split; [done|]. split; [intros ->; discriminate|]. by rewrite !app_nil_r. }
    unfold py_mod. destruct (row_group_size =? 0); [discriminate|]. simpl.
    destruct (_ && _); intros Hacc; destruct (IH _ Hacc) as (used & rest & -> & Hrest & E);
      exists (text :: used), rest; (split; [done|]); (split; [exact Hrest|]);
      rewrite E; simpl.
    + rewrite fmap_app, concat_app; simpl. by rewrite app_nil_r, <- !app_assoc.
    + by rewrite <- !app_assoc.
Qed.

(** What the flush leaves unwritten: the buffer, when the cap forbids the
    final shard. *)
Lemma flush_written (row_group_size : Z) (max_shards : option Z) (p : packer) :
  exists left,
    concat (shard_docs <$> written p) ++ buffer_docs p
    = concat (shard_docs <$> written (flush row_group_size max_shards p)) ++ left /\
    (max_shards = None -> left = []).
Proof.
  unfold flush. destruct (flush_allowed max_shards p) eqn:E; simpl.
  - exists []. rewrite fmap_app, concat_app; simpl. by rewrite !app_nil_r.
  - exists (buffer_docs p). split; [done|]. intros ->.
    unfold flush_allowed in E. rewrite andb_true_r in E.
    apply negb_false_iff, bool_decide_eq_true in E. exact E.
Qed.

Section PackagerMore.
Context `{R : Random}.

(** A run that returns either collected nothing and wrote nothing, or went
    through the shuffle, the loop and the flush. *)
Lemma package_shards_inv (g : generator) (input_files : list input_file)
    (cutoff_year chars_per_shard row_group_size shuffle_seed : Z)
    (max_shards : option Z) (o : outcome) :
  package_shards g input_files cutoff_year chars_per_shard row_group_size
    shuffle_seed max_shards = Ok o ->
  exists ys,
    iter_jsonl_texts input_files cutoff_year true true = Ok ys /\
    ((ys = [] /\ o = {| returned := initial_stats; shards := []; stats_file := None |}) \/
     (ys <> [] /\
      exists p,
        accumulate chars_per_shard row_group_size max_shards
          (random_shuffle ys (random_seed shuffle_seed g)).1 initial_packer = Ok p /\
        o = {| returned := run_stats (flush row_group_size max_shards p);
               shards := written (flush row_group_size max_shards p);
               stats_file := Some (run_stats (flush row_group_size max_shards p)) |})).
Proof.
  unfold package_shards. intros H.
  destruct (iter_jsonl_texts _ _ _ _) as [ys|]; simpl in H; [|discriminate].
  exists ys. split; [reflexivity|].
  destruct ys as [|y ys]; [injection H as <-; by left|].
  destruct (random_shuffle _ _) as [texts g'] eqn:Es. simpl.
  fold initial_packer in H.
  destruct (accumulate _ _ _ _ _) as [p|] eqn:Hp; simpl in H; [|discriminate].
  injection H as <-. right. split; [done|]. by exists p.
Qed.

(** X17. The shard files of a run are numbered 0, 1, 2, ... in the order
    they are written, and [num_shards] is their number. *)
Theorem shard_files_numbered (g : generator) (input_files : list input_file)
    (cutoff_year chars_per_shard row_group_size shuffle_seed : Z)
    (max_shards : option Z) (o : outcome) :
  package_shards g input_files cutoff_year chars_per_shard row_group_size
    shuffle_seed max_shards = Ok o ->
  shard_index <$> shards o = Z.of_nat <$> seq 0 (length (shards o)) /\
  num_shards (returned o) = Z.of_nat (length (shards o)).
Proof.
  intros (ys & _ & [[_ ->] | (_ & p & Hp & ->)])%package_shards_inv; [done|].
  apply accumulate_packer_ok in Hp; [|apply initial_packer_ok].
  destruct (flush_packer_ok row_group_size max_shards p Hp) as (H1 & H2 & _).
  by split.
Qed.

(** X18. Every shard file holds at least one document, and the character
    count it was sealed with is the total length of its documents. *)
Theorem shard_files_nonempty (g : generator) (input_files : list input_file)
    (cutoff_year chars_per_shard row_group_size shuffle_seed : Z)
    (max_shards : option Z) (o : outcome) :
  package_shards g input_files cutoff_year chars_per_shard row_group_size
    shuffle_seed max_shards = Ok o ->
  Forall (fun sh => shard_docs sh <> [] /\ shard_chars sh = total_len (shard_docs sh))
         (shards o).
Proof.
  intros (ys & _ & [[_ ->] | (_ & p & Hp & ->)])%package_shards_inv; [constructor|].
  apply accumulate_packer_ok in Hp; [|apply initial_packer_ok].
  by destruct (flush_packer_ok row_group_size max_shards p Hp) as (_ & _ & H3 & _).
Qed.

(** X19. Unless [max_shards] is 0, the statistics of a run count what the
    shard files hold: [total_docs] is the number of documents in the files
    and [total_chars] the total length of these documents. *)
Theorem stats_count_files (g : generator) (input_files : list input_file)
    (cutoff_year chars_per_shard row_group_size shuffle_seed : Z)
    (max_shards : option Z) (o : outcome) :
  max_shards <> Some 0 ->
  package_shards g input_files cutoff_year chars_per_shard row_group_size
    shuffle_seed max_shards = Ok o ->
  total_docs (returned o) = Z.of_nat (length (docs_written o)) /\
  total_chars (returned o) = total_len (docs_written o).
Proof.
  intros Hmax (ys & _ & [[_ ->] | (_ & p & Hp & ->)])%package_shards_inv; [done|].
  apply accumulate_packer_ok in Hp; [|apply initial_packer_ok].
  destruct (flush_packer_ok row_group_size max_shards p Hp) as (_ & _ & _ & H4).
  exact (H4 Hmax).
Qed.

(** X20. The documents collected are, as a multiset, the documents written
    to the shard files and the documents dropped; without [max_shards] no
    document is dropped, so the files hold every collected document once. *)
Theorem collected_written_or_dropped (g : generator) (input_files : list input_file)
    (cutoff_year chars_per_shard row_group_size shuffle_seed : Z)
    (max_shards : option Z) (o : outcome) :
  package_shards g input_files cutoff_year chars_per_shard row_group_size
    shuffle_seed max_shards = Ok o ->
  exists ys dropped,
    iter_jsonl_texts input_files cutoff_year true true = Ok ys /\
    ys ≡ₚ docs_written o ++ dropped /\
    (max_shards = None -> dropped = []).
Proof.
  intros (ys & Hys & [[-> ->] | (_ & p & Hp & ->)])%package_shards_inv.
  { exists [], []. by repeat split. }
  apply accumulate_used in Hp as (used & rest & Hsplit & Hrest & Hused).
  destruct (flush_written row_group_size max_shards p) as (left & Hleft & Hnone).
  exists ys, (left ++ rest). split; [exact Hys|]. split.
  - unfold docs_written; simpl.
    rewrite <- (random_shuffle_perm ys (random_seed shuffle_seed g)), Hsplit.
    rewrite app_assoc, <- Hleft, Hused. reflexivity.
  - intros Hmax. by rewrite (Hnone Hmax), (Hrest Hmax).
Qed.
End PackagerMore.

Lemma shard_files_numbered_witness :
  exists o,
    package_shards (R := lcg) 0 five_docs 1913 150 2 default_shuffle_seed None = Ok o /\
    shard_index <$> shards o = [0; 1; 2] /\ num_shards (returned o) = 3.
Proof.
  eexists. split; [vm_compute; reflexivity|].
  destruct (shard_files_numbered (R := lcg) 0 five_docs 1913 150 2 default_shuffle_seed None _
              ltac:(vm_compute; reflexivity)) as [H1 H2].
  split; [exact H1 | exact H2].
Defined.

Lemma shard_files_nonempty_witness :
  exists o,
    package_shards (R := lcg) 0 five_docs 1913 150 2 default_shuffle_seed None = Ok o /\
    Forall (fun sh => shard_docs sh <> [] /\ shard_chars sh = total_len (shard_docs sh))
           (shards o).
Proof.
  eexists. split; [vm_compute; reflexivity|].
  apply (shard_files_nonempty (R := lcg) 0 five_docs 1913 150 2 default_shuffle_seed None).
  vm_compute; reflexivity.
Defined.

Lemma stats_count_files_witness :
  exists o,
    package_shards (R := lcg) 0 five_docs 1913 150 2 default_shuffle_seed (Some 2) = Ok o /\
    total_docs (returned o) = Z.of_nat (length (docs_written o)) /\
    total_chars (returned o) = total_len (docs_written o).
Proof.
  eexists. split; [vm_compute; reflexivity|].
  apply (stats_count_files (R := lcg) 0 five_docs 1913 150 2 default_shuffle_seed (Some 2));
    [discriminate | vm_compute; reflexivity].
Defined.

Lemma collected_written_or_dropped_witness :
  exists o,
    package_shards (R := lcg) 0 five_docs 1913 150 2 default_shuffle_seed None = Ok o /\
    exists ys dropped,
      iter_jsonl_texts five_docs 1913 true true = Ok ys /\
      ys ≡ₚ docs_written o ++ dropped /\ dropped = [].
Proof.
  eexists. split; [vm_compute; reflexivity|].
  destruct (collected_written_or_dropped (R := lcg) 0 five_docs 1913 150 2
              default_shuffle_seed None _ ltac:(vm_compute; reflexivity))
    as (ys & dropped & Hys & Hperm & Hnone).
  exists ys, dropped. split; [exact Hys|].
  split; [exact Hperm | exact (Hnone eq_refl)].
Defined.

(** ** What reaches the shards, and when a run fails *)

Lemma input_lines_from (input_files : list input_file) (line : jsonl_line) :
  line ∈ input_lines input_files ->
  exists lines, Some lines ∈ input_files /\ line ∈ lines.
Proof.
  induction input_files as [|[lines|] files IH]; intros Hline.
  - by apply elem_of_nil in Hline.
  - change (line ∈ lines ++ input_lines files) in Hline.
    apply elem_of_app in Hline as [Hline | Hline].
    + exists lines. split; [left | exact Hline].
    + destruct (IH Hline) as (lines' & Hfile & Hin).
      exists lines'. split; [by right | exact Hin].
  - destruct (IH Hline) as (lines' & Hfile & Hin).
    exists lines'. split; [by right | exact Hin].
Qed.

(** A text that the reader of [package_shards] yields is not flagged and
    comes from a record of at least 100 characters. *)
Lemma yielded_accepted (input_files : list input_file) (cutoff_year : Z) (d : string) :
  d ∈ omap (yielded cutoff_year true true) (input_lines input_files) ->
  flagged_text cutoff_year d = false /\ from_long_record input_files true d.
Proof.
  intros (line & Hline & Hd)%list_elem_of_omap.
  destruct line as [| |record]; try discriminate.
  unfold yielded in Hd.
  destruct (record_text record) as [raw|] eqn:Htext; [|discriminate]. simpl in Hd.
  destruct (String.eqb raw "") eqn:Hempty; [discriminate|].
  destruct (len raw <? 100) eqn:Hlen; [discriminate|]. simpl in Hd.
  destruct (flagged_text _ _) eqn:Hflag; [discriminate|]. injection Hd as <-.
  split; [exact Hflag|].
  destruct (input_lines_from _ _ Hline) as (lines & Hfile & Hin).
  exists lines, record, raw. repeat split; try done.
  - intros ->. discriminate.
  - lia.
Qed.


Section FailureFacts.
Context `{R : Random}.

(** Every document in a shard file was collected by the reader. *)
Lemma docs_written_collected (g : generator) (input_files : list input_file)
    (cutoff_year chars_per_shard row_group_size shuffle_seed : Z)
    (max_shards : option Z) (o : outcome) (d : string) :
  package_shards g input_files cutoff_year chars_per_shard row_group_size
    shuffle_seed max_shards = Ok o ->
  d ∈ docs_written o ->
  d ∈ omap (yielded cutoff_year true true) (input_lines input_files).
Proof.
  intros (ys & Hys & [[_ ->] | (_ & p & Hp & ->)])%package_shards_inv Hd.
  { by apply elem_of_nil in Hd. }
  rewrite iter_jsonl_texts_closed in Hys. injection Hys as <-.
  apply accumulate_used in Hp as (used & rest & Hsplit & _ & Hused).
  destruct (flush_written row_group_size max_shards p) as (left & Hleft & _).
  rewrite <- (random_shuffle_perm _ (random_seed shuffle_seed g)), Hsplit.
  apply elem_of_app. left.
  unfold docs_written in Hd; simpl in Hd.
  assert (Hin : d ∈ concat (shard_docs <$> written initial_packer)
                    ++ buffer_docs initial_packer ++ used).
  { rewrite <- Hused, Hleft. apply elem_of_app. by left. }
  exact Hin.
Qed.

(** X21. Whatever the cap, every document in a shard file is a text that
    the contamination check does not flag, taken from a record whose raw
    text has at least 100 characters. *)
Theorem packaged_docs_accepted (g : generator) (input_files : list input_file)
    (cutoff_year chars_per_shard row_group_size shuffle_seed : Z)
    (max_shards : option Z) (o : outcome) :
  package_shards g input_files cutoff_year chars_per_shard row_group_size
    shuffle_seed max_shards = Ok o ->
  Forall (fun d => flagged_text cutoff_year d = false /\
                   from_long_record input_files true d) (docs_written o).
Proof.
  intros Hrun. apply Forall_forall. intros d Hd.
  apply yielded_accepted. by eapply docs_written_collected.
Qed.


(** X23. When no line of the input yields a text (files that do not exist,
    blank or malformed lines, records that are too short or flagged), the
    run writes no shard and no statistics file and returns the counters at
    0. *)
Theorem nothing_collected (g : generator) (input_files : list input_file)
    (cutoff_year chars_per_shard row_group_size shuffle_seed : Z) (max_shards : option Z) :
  Forall (fun line => yielded cutoff_year true true line = None) (input_lines input_files) ->
  package_shards g input_files cutoff_year chars_per_shard row_group_size
    shuffle_seed max_shards
  = Ok {| returned := initial_stats; shards := []; stats_file := None |}.
Proof.
  intros Hnone. unfold package_shards. rewrite iter_jsonl_texts_closed.
  assert (E : omap (yielded cutoff_year true true) (input_lines input_files) = []).
  { induction Hnone as [|line lines Hline _ IH]; [done|].
    cbn [omap list_omap]. by rewrite Hline. }
  by rewrite E.
Qed.

(** X24. A positive [max_shards] bounds the number of shard files; with a
    negative one the loop stops before its first document and nothing is
    packed. *)
Theorem max_shards_respected (g : generator) (input_files : list input_file)
    (cutoff_year chars_per_shard row_group_size shuffle_seed m : Z) (o : outcome) :
  m <> 0 ->
  package_shards g input_files cutoff_year chars_per_shard row_group_size
    shuffle_seed (Some m) = Ok o ->
  (0 < m -> Z.of_nat (length (shards o)) <= m) /\
  (m < 0 -> shards o = [] /\ total_docs (returned o) = 0).
Proof.
  intros Hm (ys & _ & [[_ ->] | (_ & p & Hp & ->)])%package_shards_inv.
  { simpl. split; intros; [lia | done]. }
  split.
  - intros Hpos. simpl.
    apply accumulate_capped in Hp as [Hw Hle]; simpl; try lia.
    unfold flush, flush_allowed.
    destruct (negb _); simpl; [|lia].
    destruct (next_index p <? m) eqn:Hlt; simpl; [|lia].
    rewrite length_app; simpl. lia.
  - intros Hneg.
    assert (E : p = initial_packer).
    { destruct ((random_shuffle ys (random_seed shuffle_seed g)).1) as [|text texts];
        simpl in Hp; [by injection Hp|].
      assert (Hnz : (m =? 0) = false) by lia. rewrite Hnz in Hp. simpl in Hp.
      assert (Hge : (0 >=? m) = true) by lia. rewrite Hge in Hp. by injection Hp. }
    subst p. by vm_compute.
Qed.
End FailureFacts.

Lemma packaged_docs_accepted_witness :
  exists o,
    package_shards (R := lcg) 0 kept_and_flagged 1913 default_chars_per_shard
      default_row_group_size default_shuffle_seed None = Ok o /\
    docs_written o = [replicate_char 100 "a"] /\
    Forall (fun d => flagged_text 1913 d = false /\
                     from_long_record kept_and_flagged true d) (docs_written o).
Proof.
  eexists. split; [vm_compute; reflexivity|]. split; [reflexivity|].
  apply (packaged_docs_accepted (R := lcg) 0 kept_and_flagged 1913 default_chars_per_shard
           default_row_group_size default_shuffle_seed None).
  vm_compute; reflexivity.
Defined.


Lemma nothing_collected_witness :
  let input_files := [None; Some [short_doc; web_doc; BlankLine; MalformedLine]] in
  Forall (fun line => yielded 1913 true true line = None) (input_lines input_files) /\
  package_shards (R := lcg) 0 input_files 1913 default_chars_per_shard
    default_row_group_size default_shuffle_seed None
  = Ok {| returned := initial_stats; shards := []; stats_file := None |}.
Proof.
  assert (H : Forall (fun line => yielded 1913 true true line = None)
                     (input_lines [None; Some [short_doc; web_doc; BlankLine; MalformedLine]])).
  { repeat constructor; vm_compute; reflexivity. }
  split; [exact H|].
  exact (nothing_collected (R := lcg) 0 _ 1913 default_chars_per_shard
           default_row_group_size default_shuffle_seed None H).
Defined.

Lemma max_shards_respected_witness :
  exists o,
    package_shards (R := lcg) 0 five_docs 1913 150 2 default_shuffle_seed (Some 1) = Ok o /\
    Z.of_nat (length (shards o)) <= 1.
Proof.
  eexists. split; [vm_compute; reflexivity|].
  destruct (max_shards_respected (R := lcg) 0 five_docs 1913 150 2 default_shuffle_seed 1 _
              ltac:(lia) ltac:(vm_compute; reflexivity)) as [Hpos _].
  apply Hpos. lia.
Defined.

(** ** The greedy rule *)

(** The loop seals a shard at the first row-group boundary at which the
    buffer has enough characters. *)
Lemma accumulate_greedy (chars_per_shard row_group_size : Z) (max_shards : option Z)
    (texts : list string) (p p' : packer) :
  accumulate chars_per_shard row_group_size max_shards texts p = Ok p' ->
  buffer_chars p = total_len (buffer_docs p) ->
  buffer_open chars_per_shard row_group_size (buffer_docs p) ->
  Forall (fun sh => sealed_first chars_per_shard row_group_size (shard_docs sh)) (written p) ->
  buffer_open chars_per_shard row_group_size (buffer_docs p') /\
  Forall (fun sh => sealed_first chars_per_shard row_group_size (shard_docs sh)) (written p').
Proof.
  revert p. induction texts as [|text texts IH]; intros p; simpl.
  - intros [= <-]. auto.
  - destruct (cap_reached max_shards (next_index p)); [intros [= <-]; auto|].
    unfold py_mod. destruct (row_group_size =? 0) eqn:Hrgs; [discriminate|]. simpl.
    destruct (_ && _) eqn:Hseal; intros Hacc Hchars Hopen Hw.
    + apply (IH _ Hacc); simpl; [reflexivity| |].
      * intros k Hk. simpl in Hk. lia.
      * apply Forall_app. split; [exact Hw|]. constructor; [|constructor]. simpl.
        intros k Hk Hdiv. rewrite length_app in Hk; simpl in Hk.
        rewrite take_app_le by lia. apply Hopen; [lia | exact Hdiv].
    + apply (IH _ Hacc); simpl; [rewrite total_len_app; lia| |exact Hw].
      intros k Hk Hdiv. rewrite length_app in Hk; simpl in Hk.
      destruct (decide (k <= length (buffer_docs p))%nat) as [Hle|Hgt].
      * rewrite take_app_le by lia. apply Hopen; [lia | exact Hdiv].
      * assert (k = length (buffer_docs p ++ [text])) as -> by (rewrite length_app; simpl; lia).
        rewrite firstn_all, total_len_app.
        apply andb_false_iff in Hseal as [Hfew | Hodd]; [lia|].
        exfalso. apply Z.eqb_neq in Hodd. apply Hodd.
        apply Z.mod_divide; [lia|]. exact Hdiv.
Qed.

Section GreedyFacts.
Context `{R : Random}.

(** X25. Packing is greedy: no shard file could have been sealed earlier.
    Inside every shard, no proper prefix that ends at a multiple of
    [row_group_size] documents has [chars_per_shard] characters or more. *)
Theorem shards_sealed_first (g : generator) (input_files : list input_file)
    (cutoff_year chars_per_shard row_group_size shuffle_seed : Z)
    (max_shards : option Z) (o : outcome) :
  package_shards g input_files cutoff_year chars_per_shard row_group_size
    shuffle_seed max_shards = Ok o ->
  Forall (fun sh => sealed_first chars_per_shard row_group_size (shard_docs sh)) (shards o).
Proof.
  intros (ys & _ & [[_ ->] | (_ & p & Hp & ->)])%package_shards_inv; [constructor|].
  apply accumulate_greedy in Hp as [Hopen Hw]; simpl;
    [|reflexivity|intros k Hk; simpl in Hk; lia|constructor].
  unfold flush. destruct (flush_allowed max_shards p); simpl; [|exact Hw].
  apply Forall_app. split; [exact Hw|]. constructor; [|constructor]. simpl.
  intros k Hk Hdiv. apply Hopen; [lia | exact Hdiv].
Qed.

(** X26. The shard files hold the documents in the order of the shuffle:
    read file after file, they are a prefix of the shuffled list, and the
    whole of it when [max_shards] is absent. *)
Theorem shards_in_shuffle_order (g : generator) (input_files : list input_file)
    (cutoff_year chars_per_shard row_group_size shuffle_seed : Z)
    (max_shards : option Z) (o : outcome) (ys : list string) :
  iter_jsonl_texts input_files cutoff_year true true = Ok ys ->
  package_shards g input_files cutoff_year chars_per_shard row_group_size
    shuffle_seed max_shards = Ok o ->
  exists rest,
    (random_shuffle ys (random_seed shuffle_seed g)).1 = docs_written o ++ rest /\
    (max_shards = None -> rest = []).
Proof.
  intros Hys (ys' & Hys' & [[-> ->] | (_ & p & Hp & ->)])%package_shards_inv.
  { rewrite Hys in Hys'. injection Hys' as ->. exists []. by split. }
  rewrite Hys in Hys'. injection Hys' as <-.
  apply accumulate_used in Hp as (used & rest & Hsplit & Hrest & Hused).
  destruct (flush_written row_group_size max_shards p) as (left & Hleft & Hnone).
  exists (left ++ rest). split.
  - unfold docs_written; simpl. rewrite Hsplit, app_assoc, <- Hleft, Hused. reflexivity.
  - intros Hmax. by rewrite (Hnone Hmax), (Hrest Hmax).
Qed.
End GreedyFacts.

Lemma shards_sealed_first_witness :
  exists o,
    package_shards (R := lcg) 0 five_docs 1913 150 2 default_shuffle_seed None = Ok o /\
    Forall (fun sh => sealed_first 150 2 (shard_docs sh)) (shards o).
Proof.
  eexists. split; [vm_compute; reflexivity|].
  apply (shards_sealed_first (R := lcg) 0 five_docs 1913 150 2 default_shuffle_seed None).
  vm_compute; reflexivity.
Defined.

Lemma shards_in_shuffle_order_witness :
  exists o ys,
    package_shards (R := lcg) 0 five_docs 1913 150 2 default_shuffle_seed (Some 1) = Ok o /\
    iter_jsonl_texts five_docs 1913 true true = Ok ys /\
    exists rest,
      (random_shuffle (R := lcg) ys (random_seed (R := lcg) default_shuffle_seed 0)).1
      = docs_written o ++ rest.
Proof.
  eexists. eexists. split; [vm_compute; reflexivity|].
  split; [vm_compute; reflexivity|].
  destruct (shards_in_shuffle_order (R := lcg) 0 five_docs 1913 150 2 default_shuffle_seed
              (Some 1) _ _ ltac:(vm_compute; reflexivity) ltac:(vm_compute; reflexivity))
    as (rest & Hrest & _).
  by exists rest.
Defined.

(** ** Substrings *)











(** ** The trial identifiers of the Old Bailey *)




(** The identifiers of the documentation of the module. *)
Example parse_trial_date_examples :
  parse_trial_date "t17800112-1" = Ok (Some 1780) /\
  parse_trial_date "t1780011" = Ok None /\
  parse_trial_date "17800112-1" = Ok None /\
  parse_trial_date "t00000101-1.xml" = Ok (Some 0).
Proof. repeat split. Qed.

(** ** The term check of the Gutenberg download *)

Lemma update_terms_elem (cutoff_year : Z) (l : list (Z * list string))
    (s : gset string) (term : string) :
  term ∈ foldl (update_terms cutoff_year) s l <->
  term ∈ s \/ exists year terms, (year, terms) ∈ l /\ cutoff_year <= year /\ term ∈ terms.
Proof.
  revert s. induction l as [|[year terms] l IH]; intros s; simpl.
  - split; [by left|]. intros [H | (? & ? & H & _)]; [done | by apply elem_of_nil in H].
  - rewrite IH. destruct (year >=? cutoff_year) eqn:E.
    + rewrite elem_of_union, elem_of_list_to_set. split.
      * intros [[H | H] | (y & ts & H & Hy)]; [by left | right | right].
        -- exists year, terms. split; [left|]. split; [lia | done].
        -- exists y, ts. split; [by right | done].
      * intros [H | (y & ts & [[= -> ->] | H]%elem_of_cons & Hy & Ht)].
        -- by left; left.
        -- by left; right.
        -- right. by exists y, ts.
    + split.
      * intros [H | (y & ts & H & Hy)]; [by left | right].
        exists y, ts. split; [by right | done].
      * intros [H | (y & ts & [[= -> ->] | H]%elem_of_cons & Hy & Ht)];
          [by left | lia | right; by exists y, ts].
Qed.

Lemma found_terms (text_lower : string) (l : list string) (found : list string) :
  foldl (fun found term => if contains term text_lower then found ++ [term] else found) found l
  = found ++ filter (fun term => contains term text_lower = true) l.
Proof.
  revert found. induction l as [|term l IH]; intros found; simpl.
  - by rewrite app_nil_r.
  - rewrite IH, filter_cons. destruct (contains term text_lower) eqn:E.
    + rewrite decide_True by done. by rewrite <- app_assoc.
    + by rewrite decide_False by congruence.
Qed.

(** X29. [check_for_anachronisms] returns, each of them once, exactly the
    terms listed in [ANACHRONISM_TERMS] under a year that is not before the
    cutoff year and that occur in the lower-cased text; for a cutoff year
    after 1950 it returns the empty list. *)
Theorem check_for_anachronisms_exact (text : string) (cutoff_year : Z) :
  NoDup (check_for_anachronisms text cutoff_year) /\
  (forall term,
     term ∈ check_for_anachronisms text cutoff_year <->
     (exists year terms,
        ANACHRONISM_TERMS !! year = Some terms /\ cutoff_year <= year /\ term ∈ terms) /\
     contains term (lower text) = true) /\
  (1950 < cutoff_year -> check_for_anachronisms text cutoff_year = []).
Proof.
  unfold check_for_anachronisms. rewrite found_terms. cbn [app].
  fold (terms_to_check cutoff_year).
  assert (Hterms : forall term,
            term ∈ terms_to_check cutoff_year <->
            exists year terms,
              ANACHRONISM_TERMS !! year = Some terms /\ cutoff_year <= year /\ term ∈ terms).
  { intros term. unfold terms_to_check. rewrite update_terms_elem. split.
    - intros [H | (year & terms & H & Hy)]; [by apply not_elem_of_empty in H|].
      exists year, terms. split; [by apply elem_of_map_to_list | done].
    - intros (year & terms & H & Hy). right.
      exists year, terms. split; [by apply elem_of_map_to_list | done]. }
  split; [apply NoDup_filter, NoDup_elements|]. split.
  - intros term. by rewrite list_elem_of_filter, elem_of_elements, Hterms, (and_comm _ (contains _ _ = true)).
  - intros Hc.
    assert (E : terms_to_check cutoff_year = ∅).
    { apply set_eq. intros term. rewrite Hterms. split; [|by intros H%not_elem_of_empty].
      intros (year & terms & Hlookup & Hy & _). exfalso.
      assert (Hyear : year ∈ [1850; 1900; 1913; 1950]).
      { assert (Hdom : year ∈ dom ANACHRONISM_TERMS) by (apply elem_of_dom; eauto).
        revert Hdom. generalize year. apply (bool_decide_unpack _). by vm_compute. }
      repeat (apply elem_of_cons in Hyear as [-> | Hyear]; [lia|]).
      by apply elem_of_nil in Hyear. }
    by rewrite E, elements_empty.
Qed.

Lemma check_for_anachronisms_exact_witness :
  1950 < 2000 /\ check_for_anachronisms "An email about the internet." 2000 = [].
Proof.
  split; [lia|].
  destruct (check_for_anachronisms_exact "An email about the internet." 2000)
    as (_ & _ & Hempty).
  apply Hempty. lia.
Defined.

(** Two terms of a text at cutoff 1950; at cutoff 1950 the list of 1913 is
    not consulted. *)
Example check_for_anachronisms_sample :
  check_for_anachronisms "An EMAIL about Hitler and the Internet." 1950 ≡ₚ ["email"; "internet"].
Proof. vm_compute. apply Permutation_swap || reflexivity. Qed.
